(** * ThreadlessWeb: a shallow embedding of [threadlessweb.c]

    The development follows the C source function by function.  Bytes are
    [ascii] values, C ints are [Z], the two [fd_set]s of the server handle are
    finite sets of descriptors, the conversation table is a finite map from
    descriptor to record (an absent key is a NULL slot) and the byte buffers
    obtained from [malloc] live in an explicit heap.  Code that can call
    [exit] runs in a small state-and-exit monad over the process's world.
    What the kernel answers to a system call is an input of the model.  The
    [LOG] lines have no effect on the server and are left out. *)

From Stdlib Require Import ZArith Ascii String List Lia DecimalString.
From stdpp Require Import base option list gmap sets.

Local Open Scope Z_scope.

(** ** Bytes and C string literals *)

Definition NUL : ascii := "000"%char.
Definition CR : ascii := "013"%char.
Definition LF : ascii := "010"%char.

(** The bytes of a C string literal, written here exactly as in the source:
    the escapes [\n] and [\r] stand for LF and CR. *)
Fixpoint c_lit (s : string) : list ascii :=
  match s with
  | EmptyString => []
  | String "\" (String "n" s') => LF :: c_lit s'
  | String "\" (String "r" s') => CR :: c_lit s'
  | String c s' => c :: c_lit s'
  end.

(** The array object behind a literal carries the terminating NUL, and
    [sizeof] counts it. *)
Definition c_array (s : string) : list ascii := c_lit s ++ [NUL].
Definition sizeof (s : string) : Z := Z.of_nat (length (c_array s)).
Definition strlen (s : string) : nat := length (c_lit s).

(** ** Constants of [threadlessweb.h] and [threadlessweb.c] *)

Definition VERSION : Z := 23.
Definition RESPONSE_ERROR : Z := 42.
Definition RESPONSE_FORBIDDEN : Z := 403.

Definition REQUEST_INVALID : Z := -1.
Definition REQUEST_GET : Z := 0.
Definition REQUEST_POST : Z := 1.
Definition REQUEST_NUM : Z := 2.

Definition BUFSIZE : Z := 8096.

Definition RESPONSE_CONTENT : string := "Okay\n".
Definition RESPONSE_TYPE : string := "text/html".
Definition RESPONSE_LENGTH : Z := sizeof RESPONSE_CONTENT.

Definition FORBIDDEN_TEXT : string :=
  "HTTP/1.1 403 Forbidden\nContent-Length: 185\nConnection: close\nContent-Type: text/html\n\n<html><head>\n<title>403 Forbidden</title>\n</head><body>\n<h1>Forbidden</h1>\nThe requested URL, file type or operation is not allowed on this simple static file webserver.\n</body></html>\n".
Definition FORBIDDEN_TEXT_LENGTH : Z := sizeof FORBIDDEN_TEXT.

(** [FD_SETSIZE] comes from the platform's [<sys/select.h>]; 1024 is the
    value on Linux. *)
Definition FD_SETSIZE : Z := 1024.

Definition requests : list string := ["GET "; "POST "]%string.

(** ** Data model *)

(** A pointer returned by [malloc]; [None] in a pointer field is NULL. *)
Definition loc := positive.

Module Conv.
(** [struct _WebserveConv] *)
Record t := mk {
  hit : Z;
  type : Z;
  request_header : option loc;
  request_header_size : Z;
  request_body : option loc;
  request_body_size : Z;
  response_code : Z;
  response : option loc;
  response_size : Z
}.

(** What [calloc (sizeof (WebserveConv), 1)] hands back: every field zero. *)
Definition zeroed : t := mk 0 0 None 0 None 0 0 None 0.

Definition set_hit (v : Z) (c : t) : t :=
  mk v (type c) (request_header c) (request_header_size c) (request_body c)
     (request_body_size c) (response_code c) (response c) (response_size c).
Definition set_type (v : Z) (c : t) : t :=
  mk (hit c) v (request_header c) (request_header_size c) (request_body c)
     (request_body_size c) (response_code c) (response c) (response_size c).
Definition set_request_header (p : option loc) (c : t) : t :=
  mk (hit c) (type c) p (request_header_size c) (request_body c)
     (request_body_size c) (response_code c) (response c) (response_size c).
Definition set_request_header_size (v : Z) (c : t) : t :=
  mk (hit c) (type c) (request_header c) v (request_body c)
     (request_body_size c) (response_code c) (response c) (response_size c).
Definition set_request_body (p : option loc) (c : t) : t :=
  mk (hit c) (type c) (request_header c) (request_header_size c) p
     (request_body_size c) (response_code c) (response c) (response_size c).
Definition set_request_body_size (v : Z) (c : t) : t :=
  mk (hit c) (type c) (request_header c) (request_header_size c) (request_body c)
     v (response_code c) (response c) (response_size c).
Definition set_response (p : option loc) (c : t) : t :=
  mk (hit c) (type c) (request_header c) (request_header_size c) (request_body c)
     (request_body_size c) (response_code c) p (response_size c).
Definition set_response_size (v : Z) (c : t) : t :=
  mk (hit c) (type c) (request_header c) (request_header_size c) (request_body c)
     (request_body_size c) (response_code c) (response c) v.
End Conv.

Abbreviation WebserveConv := Conv.t.

(** The heap of byte buffers handed out by [malloc]. *)
Abbreviation heap_t := (gmap loc (list ascii)).

(** [WebservConvCallback]: the callee receives the record by pointer, so it
    may rewrite the record and allocate; it answers with a C [bool]. *)
Definition WebservConvCallback : Type :=
  WebserveConv -> heap_t -> bool * WebserveConv * heap_t.

(** [struct _Webserve].  An [fd_set] is the set of descriptors whose bit is
    set; [conversation] maps a descriptor to the record its slot points to.
    The counters are kept in [Z]: the C [int hit] would overflow, with no
    defined behaviour, only after 2^31 - 1 connections. *)
Record Webserve := mkWebserve {
  listenfd : Z;
  hit : Z;
  active_read_fd_set : gset Z;
  active_write_fd_set : gset Z;
  timeout_usec : Z;
  conversation_callback : option WebservConvCallback;
  conversation : gmap Z WebserveConv;
  quit : bool
}.

Definition set_hit (v : Z) (s : Webserve) : Webserve :=
  mkWebserve (listenfd s) v (active_read_fd_set s) (active_write_fd_set s)
    (timeout_usec s) (conversation_callback s) (conversation s) (quit s).
Definition set_active_read (v : gset Z) (s : Webserve) : Webserve :=
  mkWebserve (listenfd s) (hit s) v (active_write_fd_set s)
    (timeout_usec s) (conversation_callback s) (conversation s) (quit s).
Definition set_active_write (v : gset Z) (s : Webserve) : Webserve :=
  mkWebserve (listenfd s) (hit s) (active_read_fd_set s) v
    (timeout_usec s) (conversation_callback s) (conversation s) (quit s).
Definition set_timeout (v : Z) (s : Webserve) : Webserve :=
  mkWebserve (listenfd s) (hit s) (active_read_fd_set s) (active_write_fd_set s)
    v (conversation_callback s) (conversation s) (quit s).
Definition set_callback (v : option WebservConvCallback) (s : Webserve) : Webserve :=
  mkWebserve (listenfd s) (hit s) (active_read_fd_set s) (active_write_fd_set s)
    (timeout_usec s) v (conversation s) (quit s).
Definition set_conversation (v : gmap Z WebserveConv) (s : Webserve) : Webserve :=
  mkWebserve (listenfd s) (hit s) (active_read_fd_set s) (active_write_fd_set s)
    (timeout_usec s) (conversation_callback s) v (quit s).
Definition set_quit (v : bool) (s : Webserve) : Webserve :=
  mkWebserve (listenfd s) (hit s) (active_read_fd_set s) (active_write_fd_set s)
    (timeout_usec s) (conversation_callback s) (conversation s) v.

(** [webserve->conversation[fd] = p] for a pointer [p] that may be NULL. *)
Definition store_slot (fd : Z) (p : option WebserveConv) (s : Webserve) : Webserve :=
  match p with
  | Some c => set_conversation (<[fd := c]> (conversation s)) s
  | None => set_conversation (delete fd (conversation s)) s
  end.

(** [FD_ZERO], [FD_SET], [FD_CLR], [FD_ISSET] *)
Definition FD_ZERO : gset Z := ∅.
Definition FD_SET (fd : Z) (s : gset Z) : gset Z := {[fd]} ∪ s.
Definition FD_CLR (fd : Z) (s : gset Z) : gset Z := s ∖ {[fd]}.
Definition FD_ISSET (fd : Z) (s : gset Z) : bool := bool_decide (fd ∈ s).

(** ** The process's world and the monad of the effectful code *)

Inductive event :=
  | EvWrite (fd : Z) (data : list ascii)   (* write(fd, data, length data) *)
  | EvClose (fd : Z)                       (* close(fd) *)
  | EvCallback (fd : Z)                    (* the registered callback was run *)
  | EvDefault (fd : Z).                    (* the fallback default was run *)

Record World := mkWorld {
  heap : heap_t;          (* live malloc'ed byte buffers *)
  open_fds : gset Z;      (* the kernel's descriptor table for the process *)
  trace : list event      (* what the process did, oldest first *)
}.

Definition set_heap (h : heap_t) (w : World) : World :=
  mkWorld h (open_fds w) (trace w).
Definition set_open (o : gset Z) (w : World) : World :=
  mkWorld (heap w) o (trace w).
Definition log_event (e : event) (w : World) : World :=
  mkWorld (heap w) (open_fds w) (trace w ++ [e]).

(** How a computation ends: it returns, the process leaves through [exit],
    the C code has no defined behaviour (a NULL dereference, a descriptor
    outside an [fd_set]), or the run asked of the kernel cannot happen
    ([accept] handing out a descriptor that is still open). *)
Inductive outcome (A : Type) :=
  | Running (a : A) (w : World)
  | Exited (status : Z) (w : World)
  | Undefined
  | Impossible.
Arguments Running {A} a w.
Arguments Exited {A} status w.
Arguments Undefined {A}.
Arguments Impossible {A}.

Definition M (A : Type) : Type := World -> outcome A.

Definition pure {A} (a : A) : M A := fun w => Running a w.
Definition bind {A B} (m : M A) (k : A -> M B) : M B :=
  fun w => match m w with
           | Running a w' => k a w'
           | Exited st w' => Exited st w'
           | Undefined => Undefined
           | Impossible => Impossible
           end.
Definition exit {A} (status : Z) : M A := fun w => Exited status w.
Definition undefined {A} : M A := fun _ => Undefined.
Definition get_heap : M heap_t := fun w => Running (heap w) w.
Definition emit (e : event) : M unit := fun w => Running tt (log_event e w).

Notation "'do' x <- m ; k" := (bind m (fun x => k))
  (at level 10, x name, m at level 100, k at level 200).

(** *** libc and system calls *)

(** [malloc (n)]: a fresh block of [n] bytes.  Their initial content is
    unspecified in C; the model fills the block with NUL.  Allocation is
    taken to succeed. *)
Definition malloc (n : Z) : M loc := fun w =>
  let p := fresh (dom (heap w)) in
  Running p (set_heap (<[p := replicate (Z.to_nat n) NUL]> (heap w)) w).

(** [free (p)] *)
Definition free (p : loc) : M unit := fun w =>
  Running tt (set_heap (delete p (heap w)) w).

(** [if (p) free (p);] *)
Definition free_if (p : option loc) : M unit :=
  match p with Some q => free q | None => pure tt end.

(** [memcpy (dst, src, n)] into the block at [dst]. *)
Definition memcpy (dst : loc) (src : list ascii) (n : Z) : M unit := fun w =>
  match heap w !! dst with
  | Some blk =>
      if bool_decide (Z.to_nat n <= length blk /\ Z.to_nat n <= length src)%nat
      then Running tt (set_heap (<[dst := take (Z.to_nat n) src ++ drop (Z.to_nat n) blk]> (heap w)) w)
      else Undefined
  | None => Undefined
  end.

(** [dst[i] = c] *)
Definition poke (dst : loc) (i : Z) (c : ascii) : M unit := fun w =>
  match heap w !! dst with
  | Some blk =>
      if bool_decide (0 <= i < Z.of_nat (length blk))
      then Running tt (set_heap (<[dst := <[Z.to_nat i := c]> blk]> (heap w)) w)
      else Undefined
  | None => Undefined
  end.

(** [write (fd, data, n)]: the kernel is taken to accept all [n] bytes. *)
Definition sys_write (fd : Z) (data : list ascii) (n : Z) : M unit :=
  if bool_decide (Z.to_nat n <= length data)%nat
  then emit (EvWrite fd (take (Z.to_nat n) data))
  else undefined.

(** [close (fd)] *)
Definition sys_close (fd : Z) : M unit := fun w =>
  Running tt (log_event (EvClose fd) (set_open (open_fds w ∖ {[fd]}) w)).

(** [read (fd, buffer, count)]: [incoming] is what the kernel has for this
    call, [None] when the call fails with -1; at most [count] bytes are
    taken.  The result is the return value and the bytes now at the start
    of the buffer. *)
Definition sys_read (incoming : option (list ascii)) (count : Z) : Z * list ascii :=
  match incoming with
  | None => (-1, [])
  | Some data =>
      let got := take (Z.to_nat count) data in
      (Z.of_nat (length got), got)
  end.

(** ** The request framer: the pure parts of [web_read] *)

Definition is_crlf (c : ascii) : bool := Ascii.eqb c CR || Ascii.eqb c LF.

(** Lines 112-119: [buffer[ret] = 0] when the read left room, and
    [buffer[0] = 0] otherwise.  The model's buffer is the list of the [ret]
    bytes read; the byte after them reads as NUL (the static array is one
    byte longer than any read and its last byte is never written), so the
    first branch leaves the list as it is. *)
Definition terminate_buffer (ret : Z) (buffer : list ascii) : list ascii :=
  if (0 <? ret) && (ret <? BUFSIZE) then buffer
  else <[0%nat := NUL]> buffer.

(** Lines 121-137, the [while] loop: [rest] holds [buffer[i..ret)]; the loop
    stops with [boundary = i] at the first byte that is neither CR nor LF
    and follows at least four of them, and with [boundary = ret] when [i]
    reaches [ret]. *)
Fixpoint boundary_scan (rest : list ascii) (i retcount ret : Z) : Z :=
  match rest with
  | [] => ret
  | c :: rest' =>
      if is_crlf c then boundary_scan rest' (i + 1) (retcount + 1) ret
      else if 4 <=? retcount then i
      else boundary_scan rest' (i + 1) 0 ret
  end.

Definition find_boundary (buffer : list ascii) (ret : Z) : Z :=
  boundary_scan buffer 0 0 ret.

(** Lines 139-154: the copies into the conversation. *)
Definition frame_request (conversation : option WebserveConv)
    (buffer : list ascii) (ret : Z) : M (option WebserveConv) :=
  let boundary := find_boundary buffer ret in
  match conversation with
  | Some c =>
      do hp <- malloc (boundary + 1);
      do _ <- memcpy hp buffer boundary;
      do _ <- poke hp boundary NUL;
      let c := Conv.set_request_header_size boundary
                 (Conv.set_request_header (Some hp) c) in
      do bp <- malloc (ret - boundary + 1);
      do _ <- memcpy bp (drop (Z.to_nat boundary) buffer) (ret - boundary);
      do _ <- poke bp (ret - boundary) NUL;
      pure (Some (Conv.set_request_body_size (ret - boundary)
                    (Conv.set_request_body (Some bp) c)))
  | None => pure None
  end.

(** Lines 156-161: CR and LF become ['*'] before the request is logged. *)
Definition star_crlf (c : ascii) : ascii := if is_crlf c then "*"%char else c.

(** [tolower] in the C locale. *)
Definition tolower (c : ascii) : ascii :=
  let n := nat_of_ascii c in
  if (65 <=? n)%nat && (n <=? 90)%nat then ascii_of_nat (n + 32) else c.

(** [strncasecmp (s1, s2, n)]: a list that is exhausted reads as its
    terminating NUL. *)
Fixpoint strncasecmp (s1 s2 : list ascii) (n : nat) : Z :=
  match n with
  | O => 0
  | S n' =>
      let c1 := tolower (hd NUL s1) in
      let c2 := tolower (hd NUL s2) in
      if Ascii.eqb c1 c2
      then (if Ascii.eqb c1 NUL then 0 else strncasecmp (tl s1) (tl s2) n')
      else Z.of_nat (nat_of_ascii c1) - Z.of_nat (nat_of_ascii c2)
  end.

(** Lines 165-173, the [for] loop over the [requests] table; [table] holds
    [requests[request..]].  The result is [(type, prefixsize)]. *)
Fixpoint classify_loop (table : list string) (request : Z)
    (buffer : list ascii) (type prefixsize : Z) : Z * Z :=
  match table with
  | [] => (type, prefixsize)
  | r :: table' =>
      if (request <? REQUEST_NUM) && (type =? REQUEST_INVALID) then
        let size := strlen r in
        if strncasecmp buffer (c_lit r) size =? 0
        then classify_loop table' (request + 1) buffer request (Z.of_nat size)
        else classify_loop table' (request + 1) buffer type prefixsize
      else (type, prefixsize)
  end.

Definition classify (buffer : list ascii) : Z * Z :=
  classify_loop requests 0 buffer REQUEST_INVALID 0.

(** ** The effectful functions *)

(** [forbidden (socket_fd)] *)
Definition forbidden (socket_fd : Z) : M unit :=
  sys_write socket_fd (c_array FORBIDDEN_TEXT) FORBIDDEN_TEXT_LENGTH.

(** [web_read (fd, conversation)]; [incoming] is what [read] finds on the
    descriptor.  The result is the record [conversation] points to after the
    call (the pointer itself does not change).  The closing loop of the C
    function (lines 185-192) only edits the scratch buffer, which nothing
    reads before the next [read] overwrites it, and is left out, as are the
    log lines. *)
Definition web_read (fd : Z) (conversation : option WebserveConv)
    (incoming : option (list ascii)) : M (option WebserveConv) :=
  let '(ret, buffer) := sys_read incoming BUFSIZE in
  if (ret =? 0) || (ret =? -1) then
    do _ <- forbidden fd; exit 3
  else
    let buffer := terminate_buffer ret buffer in
    do conversation <- frame_request conversation buffer ret;
    let buffer := map star_crlf buffer in
    let '(type, prefixsize) := classify buffer in
    let conversation := Conv.set_type type <$> conversation in
    if (type <=? REQUEST_INVALID) || (REQUEST_NUM <=? type) then
      do _ <- forbidden fd; exit 3
    else pure conversation.

(** [%d] and [%ld] of a value that is not negative. *)
Definition decimal (n : Z) : list ascii :=
  list_ascii_of_string (NilZero.string_of_int (Z.to_int n)).

(** The [sprintf] of [web_write]. *)
Definition response_head (length : Z) : list ascii :=
  c_lit "HTTP/1.1 200 OK\nServer: nweb/" ++ decimal VERSION
  ++ c_lit ".0\nContent-Length: " ++ decimal length
  ++ c_lit "\nConnection: close\nContent-Type: " ++ c_lit RESPONSE_TYPE
  ++ c_lit "\n\n".

(** [web_write (fd, conversation)] *)
Definition web_write (fd : Z) (conversation : option WebserveConv) : M unit :=
  do h <- get_heap;
  let fallback := Some (c_array RESPONSE_CONTENT, RESPONSE_LENGTH) in
  let chosen :=
    match conversation with
    | Some c =>
        match Conv.response c with
        | Some p => (fun blk => (blk, Conv.response_size c)) <$> h !! p
        | None => fallback
        end
    | None => fallback
    end in
  match chosen with
  | Some (content, length) =>
      let buffer := response_head length in
      do _ <- sys_write fd buffer (Z.of_nat (List.length buffer));
      do _ <- sys_write fd content length;
      sys_close fd
  | None => undefined
  end.

(** What [strncpy (dst, src, n)] stores in [dst[0..n)]: the characters of
    [src] up to its NUL, then NUL padding. *)
Fixpoint strncpy_bytes (src : list ascii) (n : nat) : list ascii :=
  match n with
  | O => []
  | S n' =>
      match src with
      | [] => replicate (S n') NUL
      | c :: src' =>
          if Ascii.eqb c NUL then replicate (S n') NUL
          else c :: strncpy_bytes src' n'
      end
  end.

(** [default_conv_callback (conversation)] *)
Definition default_conv_callback : WebservConvCallback := fun conversation h =>
  let p := fresh (dom h) in
  let blk := replicate (Z.to_nat (RESPONSE_LENGTH + 1)) NUL in
  let blk := strncpy_bytes (c_array RESPONSE_CONTENT) (Z.to_nat RESPONSE_LENGTH)
             ++ drop (Z.to_nat RESPONSE_LENGTH) blk in
  (true,
   Conv.set_response_size RESPONSE_LENGTH (Conv.set_response (Some p) conversation),
   <[p := blk]> h).

(** The frees of a conversation's buffers and of the record, shared by
    [conversation_new] and [conversation_clear]; the record's own storage is
    the table slot, which the caller overwrites next. *)
Definition free_conversation (c : WebserveConv) : M unit :=
  do _ <- free_if (Conv.request_header c);
  do _ <- free_if (Conv.request_body c);
  free_if (Conv.response c).

(** [conversation_new (webserve, fd)] *)
Definition conversation_new (webserve : Webserve) (fd : Z) : M Webserve :=
  if (0 <=? fd) && (fd <? FD_SETSIZE) then
    do _ <- match conversation webserve !! fd with
            | Some old => free_conversation old
            | None => pure tt
            end;
    let fresh_conv := Conv.set_type RESPONSE_ERROR
                        (Conv.set_hit (hit webserve) Conv.zeroed) in
    pure (store_slot fd (Some fresh_conv) webserve)
  else pure webserve.

(** [conversation_clear (webserve, fd)] *)
Definition conversation_clear (webserve : Webserve) (fd : Z) : M Webserve :=
  if (0 <? fd) && (fd <? FD_SETSIZE) then
    match conversation webserve !! fd with
    | Some c =>
        do _ <- free_conversation c;
        pure (store_slot fd None webserve)
    | None => pure webserve
    end
  else pure webserve.

(** [set_timeout_usec] and [set_conv_callback] *)
Definition set_timeout_usec (webserve : Webserve) (usec : Z) : Webserve :=
  set_timeout usec webserve.

Definition set_conv_callback (webserve : Webserve)
    (conversation_callback : option WebservConvCallback) : Webserve :=
  match conversation_callback with
  | Some cb => set_callback (Some cb) webserve
  | None => set_callback (Some default_conv_callback) webserve
  end.

(** [check_connect (listenfd)] *)
Definition check_connect (listenfd : Z) : Webserve :=
  {| listenfd := listenfd;
     hit := 0;
     active_read_fd_set := FD_SET listenfd FD_ZERO;
     active_write_fd_set := FD_ZERO;
     timeout_usec := 1000000;
     conversation_callback := Some default_conv_callback;
     conversation := ∅;
     quit := false |}.

(** *** Starting and stopping *)

(** What the kernel answers to the three calls of [start_server]. *)
Record StartEnv := mkStartEnv {
  socket_ret : Z;
  bind_ret : Z;
  listen_ret : Z
}.

(** A call that creates a descriptor ([socket], [accept]): a negative answer
    is a failure, any other answer is a descriptor that was not open. *)
Definition new_descriptor (answer : Z) : M Z := fun w =>
  if answer <? 0 then Running answer w
  else if bool_decide (answer ∈ open_fds w) then Impossible
  else Running answer (set_open ({[answer]} ∪ open_fds w) w).

(** [start_server (port)] *)
Definition start_server (env : StartEnv) (port : Z) : M Webserve :=
  do listenfd <- new_descriptor (socket_ret env);
  if listenfd <? 0 then exit 3
  else if (port <? 0) || (60000 <? port) then exit 3
  else if bind_ret env <? 0 then exit 3
  else if listen_ret env <? 0 then exit 3
  else pure (check_connect listenfd).

(** [finish_server (webserve)]; the handle is gone afterwards. *)
Definition finish_server (webserve : Webserve) : M unit :=
  sys_close (listenfd webserve).

(** *** One poll cycle *)

(** [EXIT_FAILURE] of [<stdlib.h>]. *)
Definition EXIT_FAILURE : Z := 1.

(** What the kernel answers during one call of [poll_once]: the result of
    [select] and the descriptors it finds readable and writable, the answer
    of [accept], and what [read] finds on each descriptor. *)
Record Env := mkEnv {
  select_ret : Z;
  ready_read : gset Z;
  ready_write : gset Z;
  accept_ret : Z;
  read_data : Z -> option (list ascii)
}.

(** [FD_SET (fd, set)] as the loop uses it: a descriptor outside the bit
    array has no defined behaviour. *)
Definition fd_set_checked (fd : Z) (s : gset Z) : M (gset Z) :=
  if (0 <=? fd) && (fd <? FD_SETSIZE) then pure (FD_SET fd s) else undefined.

(** Running a callback on the record of slot [i].  With an empty slot the
    callee would be handed NULL, which [default_conv_callback] dereferences. *)
Definition run_callback (cb : WebservConvCallback) (i : Z)
    (webserve : Webserve) : M (bool * Webserve) := fun w =>
  match conversation webserve !! i with
  | Some c =>
      let '(result, c', h') := cb c (heap w) in
      Running (result, store_slot i (Some c') webserve) (set_heap h' w)
  | None => Undefined
  end.

(** The body of the [for] loop of [poll_once] for descriptor [i]: first the
    [if (FD_ISSET (i, &read_fd_set))] statement (lines 349-379) ... *)
Definition service_read (env : Env) (read_fd_set : gset Z) (i : Z)
    (webserve : Webserve) : M Webserve :=
  if FD_ISSET i read_fd_set then
    if i =? listenfd webserve then
      do fd <- new_descriptor (accept_ret env);
      if fd <? 0 then exit EXIT_FAILURE
      else
        let webserve := set_hit (hit webserve + 1) webserve in
        do rd <- fd_set_checked fd (active_read_fd_set webserve);
        let webserve := set_active_read rd webserve in
        conversation_new webserve fd
    else
      do c <- web_read i (conversation webserve !! i) (read_data env i);
      let webserve := store_slot i c webserve in
      let webserve :=
        set_active_read (FD_CLR i (active_read_fd_set webserve)) webserve in
      do called <-
        match conversation_callback webserve with
        | Some cb =>
            do _ <- emit (EvCallback i);
            run_callback cb i webserve
        | None => pure (false, webserve)
        end;
      let '(conv_result, webserve) := called in
      (* [(conv_result = false)] assigns: its value is the [false] stored *)
      let conv_result := false in
      do called <-
        (if negb (bool_decide (is_Some (conversation_callback webserve)))
            || conv_result
         then
           do _ <- emit (EvDefault i);
           run_callback default_conv_callback i webserve
         else pure (conv_result, webserve));
      let '(conv_result, webserve) := called in
      pure (set_active_write (FD_SET i (active_write_fd_set webserve)) webserve)
  else pure webserve.

(** ... then the [if (FD_ISSET (i, &write_fd_set))] statement (lines
    381-387). *)
Definition service_write (write_fd_set : gset Z) (i : Z)
    (webserve : Webserve) : M Webserve :=
  if FD_ISSET i write_fd_set then
    do _ <- web_write i (conversation webserve !! i);
    let webserve :=
      set_active_write (FD_CLR i (active_write_fd_set webserve)) webserve in
    conversation_clear webserve i
  else pure webserve.

Definition service (env : Env) (read_fd_set write_fd_set : gset Z) (i : Z)
    (webserve : Webserve) : M Webserve :=
  do webserve <- service_read env read_fd_set i webserve;
  service_write write_fd_set i webserve.

(** The [for] loop: [n] descriptors are left, starting at [i]. *)
Fixpoint poll_loop (env : Env) (read_fd_set write_fd_set : gset Z)
    (n : nat) (i : Z) (webserve : Webserve) : M Webserve :=
  match n with
  | O => pure webserve
  | S n' =>
      if quit webserve then pure webserve
      else
        do webserve <- service env read_fd_set write_fd_set i webserve;
        poll_loop env read_fd_set write_fd_set n' (i + 1) webserve
  end.

(** [poll_once (webserve)]: the handle after the call; the C function's
    return value is its [quit] field. *)
Definition poll_once (env : Env) (webserve : Webserve) : M Webserve :=
  (* [select] reports only descriptors it was given *)
  let read_fd_set := active_read_fd_set webserve ∩ ready_read env in
  let write_fd_set := active_write_fd_set webserve ∩ ready_write env in
  let webserve :=
    if select_ret env <? 0 then set_quit true webserve else webserve in
  poll_loop env read_fd_set write_fd_set (Z.to_nat FD_SETSIZE) 0 webserve.

(** [poll_thrice (webserve)], with the kernel's answers for each cycle. *)
Fixpoint poll_n (envs : list Env) (webserve : Webserve) : M Webserve :=
  match envs with
  | [] => pure webserve
  | env :: envs' =>
      if quit webserve then pure webserve
      else
        do after <- poll_once env webserve;
        poll_n envs' (set_quit (quit webserve || quit after) after)
  end.

Definition poll_thrice (e1 e2 e3 : Env) (webserve : Webserve) : M Webserve :=
  poll_n [e1; e2; e3] webserve.

(** [poll_forever (webserve)] (lines 312-316), with the kernel's answers for
    the cycles to come: [Some] handle when the loop has ended, [None] when
    it is still running after the last of the answers. *)
Fixpoint poll_forever (envs : list Env) (webserve : Webserve)
    : M (option Webserve) :=
  match envs with
  | [] => pure (if quit webserve then Some webserve else None)
  | env :: envs' =>
      if quit webserve then pure (Some webserve)
      else
        do after <- poll_once env webserve;
        poll_forever envs' (set_quit (quit webserve || quit after) after)
  end.

(** * Vocabulary of the properties *)

(** Every byte of the list is CR or LF. *)
Definition crlf_run (l : list ascii) : Prop :=
  Forall (fun c => is_crlf c = true) l.

(** Four consecutive positions of the list hold CR or LF. *)
Definition has_run4 (l : list ascii) : Prop :=
  exists j : nat, forall k : nat, (k < 4)%nat ->
    exists c, l !! (j + k)%nat = Some c /\ is_crlf c = true.

(** The list is empty or its last (first) byte is neither CR nor LF. *)
Definition ends_plain (l : list ascii) : Prop :=
  forall c, last l = Some c -> is_crlf c = false.
Definition starts_plain (l : list ascii) : Prop :=
  forall c, head l = Some c -> is_crlf c = false.

(** The first bytes of the buffer are the prefix, up to the case of
    letters. *)
Definition begins_with_ci (buffer prefix : list ascii) : Prop :=
  map tolower (take (length prefix) buffer) = map tolower prefix.

Definition GET_prefix : list ascii := c_lit "GET ".
Definition POST_prefix : list ascii := c_lit "POST ".

(** The method [web_read] finds for a buffer: lines 156-173. *)
Definition request_type (buffer : list ascii) : Z :=
  fst (classify (map star_crlf buffer)).

(** The buffer as the framer and the classification see it after
    [read] and the terminating store. *)
Definition read_buffer (data : list ascii) : list ascii :=
  let got := take (Z.to_nat BUFSIZE) data in
  terminate_buffer (Z.of_nat (length got)) got.

(** The three ways the read of a data descriptor is a fault. *)
Definition read_fault (incoming : option (list ascii)) : Prop :=
  match incoming with
  | None => True
  | Some data => data = [] \/ request_type (read_buffer data) = REQUEST_INVALID
  end.

(** A computation that, when it returns, has left a part of the world, seen
    through [view], as it was; and a part of the world that does not depend
    on the heap. *)
Definition unchanged {X A} (view : World -> X) (m : M A) : Prop :=
  forall w a w', m w = Running a w' -> view w' = view w.

Definition ignores_heap {X} (view : World -> X) : Prop :=
  forall h w, view (set_heap h w) = view w.

(** The two parts that matter below: the kernel's descriptor table and the
    trace. *)
Definition keeps_open {A} (m : M A) : Prop := unchanged open_fds m.
Definition keeps_trace {A} (m : M A) : Prop := unchanged trace m.

(** Two handles that differ at most in the conversation table. *)
Definition same_frame (a b : Webserve) : Prop :=
  listenfd a = listenfd b /\ hit a = hit b /\
  active_read_fd_set a = active_read_fd_set b /\
  active_write_fd_set a = active_write_fd_set b /\
  quit a = quit b /\ conversation_callback a = conversation_callback b.

(** What holds of a handle between two poll cycles: the sets are disjoint,
    every descriptor in them is open, and the listening descriptor awaits
    reading. *)
Record server_inv (webserve : Webserve) (w : World) : Prop := {
  inv_disjoint : active_read_fd_set webserve ## active_write_fd_set webserve;
  inv_open : active_read_fd_set webserve ∪ active_write_fd_set webserve
               ⊆ open_fds w;
  inv_listen : listenfd webserve ∈ active_read_fd_set webserve
}.

(** What holds inside the scan before descriptor [i] is serviced: the
    descriptors of the two snapshots that are still to come are still in
    their sets. *)
Record loop_inv (read_fd_set write_fd_set : gset Z) (i : Z)
    (webserve : Webserve) (w : World) : Prop := {
  loop_server : server_inv webserve w;
  loop_read : forall j, i <= j -> j ∈ read_fd_set ->
              j ∈ active_read_fd_set webserve;
  loop_write : forall j, i <= j -> j ∈ write_fd_set ->
               j ∈ active_write_fd_set webserve
}.

(** The states of a running server: what [start_server] returns, and from
    there any number of poll cycles, whatever the kernel answers in each,
    with calls of the two setters in between.  Between two calls the host
    may also do what it likes with the rest of the process, as long as it
    leaves the server's descriptors open. *)
Inductive reachable : Webserve -> World -> Prop :=
  | reach_start env port w webserve w' :
      start_server env port w = Running webserve w' ->
      reachable webserve w'
  | reach_poll env webserve w webserve' w' :
      reachable webserve w ->
      poll_once env webserve w = Running webserve' w' ->
      reachable webserve' w'
  | reach_set_timeout usec webserve w :
      reachable webserve w ->
      reachable (set_timeout_usec webserve usec) w
  | reach_set_callback cb webserve w :
      reachable webserve w ->
      reachable (set_conv_callback webserve cb) w
  | reach_host webserve w w' :
      reachable webserve w ->
      active_read_fd_set webserve ∪ active_write_fd_set webserve ⊆ open_fds w' ->
      reachable webserve w'.

(** The buffers a conversation owns: the targets of its pointers that are
    not NULL. *)
Definition owned (c : WebserveConv) : list loc :=
  option_list (Conv.request_header c) ++ option_list (Conv.request_body c)
  ++ option_list (Conv.response c).

(** The heap after [if (p) free (p);], and after the three frees of a
    conversation. *)
Definition drop_block (p : option loc) (h : heap_t) : heap_t :=
  match p with Some q => delete q h | None => h end.

Definition release_buffers (c : WebserveConv) (h : heap_t) : heap_t :=
  drop_block (Conv.response c)
    (drop_block (Conv.request_body c) (drop_block (Conv.request_header c) h)).

(** The record [conversation_new] installs. *)
Definition fresh_conversation (webserve : Webserve) : WebserveConv :=
  Conv.mk (hit webserve) RESPONSE_ERROR None 0 None 0 0 None 0.


(** Every registered descriptor other than the listening one has a
    conversation in its slot. *)
Definition registered_have_conversations (webserve : Webserve) : Prop :=
  forall fd,
    fd ∈ active_read_fd_set webserve ∪ active_write_fd_set webserve ->
    fd <> listenfd webserve ->
    is_Some (conversation webserve !! fd).

(** * Scenarios for the concrete runs *)

(** A process with the three standard descriptors open; the kernel grants
    every call of [start_server] and hands out descriptor 3 for the
    socket. *)
Definition boot : World := mkWorld ∅ {[0; 1; 2]} [].
Definition kernel_ok : StartEnv := mkStartEnv 3 0 0.

Definition no_data : Z -> option (list ascii) := fun _ => None.

(** One cycle in which a client connects: the listening descriptor 3 is
    readable and [accept] returns [fd]. *)
Definition connects (fd : Z) : Env := mkEnv 1 {[3]} ∅ fd no_data.

(** One cycle in which the client on [fd] has sent [request]. *)
Definition sends (fd : Z) (request : list ascii) : Env :=
  mkEnv 1 {[fd]} ∅ (-1) (fun i => if i =? fd then Some request else None).

(** One cycle in which [fd] can be written. *)
Definition drains (fd : Z) : Env := mkEnv 1 ∅ {[fd]} (-1) no_data.

(** The handle and the world of a computation that returned. *)
Definition handle_of (o : outcome Webserve) : Webserve :=
  match o with Running webserve _ => webserve | _ => check_connect 0 end.
Definition world_of {A} (o : outcome A) : World :=
  match o with Running _ w | Exited _ w => w | _ => boot end.

Definition get_request : list ascii := c_lit "GET / HTTP/1.1\r\nHost: x\r\n\r\n".

(** The server after start, after a client connected on descriptor 4, and
    after that client's GET request was read. *)
Definition started : outcome Webserve := start_server kernel_ok 8080 boot.
Definition connected : outcome Webserve :=
  poll_once (connects 4) (handle_of started) (world_of started).
Definition answered : outcome Webserve :=
  poll_once (sends 4 get_request) (handle_of connected) (world_of connected).

(** The computation returned. *)
Definition is_running {A} (o : outcome A) : bool :=
  match o with Running _ _ => true | _ => false end.





(** A request of exactly [BUFSIZE] bytes that begins with "GET ". *)
Definition full_get : list ascii := GET_prefix ++ replicate (Z.to_nat 8092) "a"%char.

(** A callback that leaves the payload "no" and reports failure, and one
    that reports failure without touching the conversation. *)
Definition declining : WebservConvCallback := fun conversation h =>
  let p := fresh (dom h) in
  (false,
   Conv.set_response_size 2 (Conv.set_response (Some p) conversation),
   <[p := c_lit "no"]> h).

Definition refusing : WebservConvCallback := fun conversation h =>
  (false, conversation, h).

(** Start, register [cb], then the three cycles of one GET request on
    descriptor 4. *)
Definition serve_get (cb : option WebservConvCallback) : outcome Webserve :=
  (do webserve <- start_server kernel_ok 8080;
   poll_thrice (connects 4) (sends 4 get_request) (drains 4)
     (set_conv_callback webserve cb)) boot.

(** The same up to the cycle that reads the request. *)
Definition read_get (cb : option WebservConvCallback) : outcome Webserve :=
  (do webserve <- start_server kernel_ok 8080;
   poll_n [connects 4; sends 4 get_request] (set_conv_callback webserve cb)) boot.

(** A process whose standard input is closed: [accept] hands out 0. *)
Definition boot_no_stdin : World := mkWorld ∅ {[1; 2]} [].

(** One GET request on a connection accepted on descriptor 0, through its
    three cycles. *)
Definition served_on_zero : outcome Webserve :=
  (do webserve <- start_server kernel_ok 8080;
   poll_thrice (connects 0) (sends 0 get_request) (drains 0) webserve)
    boot_no_stdin.

(** More kernel answers: a cycle whose [select] fails, one whose [select]
    times out, and one in which the listening descriptor 3 is readable but
    [accept] fails. *)
Definition interrupted : Env := mkEnv (-1) ∅ ∅ (-1) no_data.
Definition timed_out : Env := mkEnv 0 ∅ ∅ (-1) no_data.
Definition refused : Env := connects (-1).

(** The three cycles of one GET request on descriptor 4. *)
Definition served : outcome Webserve :=
  poll_thrice (connects 4) (sends 4 get_request) (drains 4)
    (handle_of started) (world_of started).


(** A conversation whose payload is the four bytes of block 1, and a world
    that holds this block with descriptor 4 open. *)
Definition replying : WebserveConv :=
  Conv.set_response_size 4 (Conv.set_response (Some 1%positive) Conv.zeroed).
Definition holding : World :=
  mkWorld {[1%positive := c_lit "Okay"]} {[0; 1; 2; 4]} [].

(** * Properties *)

(** ** Runs of CR/LF and the header/body boundary *)

Lemma ends_plain_nil : ends_plain [].
Proof. intros c H. discriminate. Qed.

Lemma ends_plain_snoc l c : is_crlf c = false -> ends_plain (l ++ [c]).
Proof. intros Hc d Hd. rewrite last_snoc in Hd. congruence. Qed.

Lemma no_run4_nil : ~ has_run4 [].
Proof. intros [j Hj]. destruct (Hj 0%nat) as [c [Hc _]]; [lia | discriminate]. Qed.

Lemma has_run4_middle pre run post :
  crlf_run run -> (4 <= length run)%nat -> has_run4 (pre ++ run ++ post).
Proof.
  intros Hrun Hlen. exists (length pre). intros k Hk.
  destruct (lookup_lt_is_Some_2 run k) as [c Hc]; [lia |].
  exists c. split.
  - rewrite lookup_app_r by lia.
    replace (length pre + k - length pre)%nat with k by lia.
    rewrite lookup_app_l by lia. exact Hc.
  - unfold crlf_run in Hrun. rewrite Forall_forall in Hrun.
    apply Hrun. eapply list_elem_of_lookup_2. exact Hc.
Qed.

(** A short run between a plain-ended prefix without a run of four and at
    most one plain byte adds no run of four. *)
Lemma no_run4_extend pre run tl :
  ends_plain pre -> ~ has_run4 pre -> (length run < 4)%nat ->
  starts_plain tl -> (length tl <= 1)%nat ->
  ~ has_run4 (pre ++ run ++ tl).
Proof.
  intros Hend Hpre Hlen Htl Htl1 [j Hj].
  assert (Hbound : (j + 3 < length pre + length run)%nat).
  { destruct (Hj 3%nat) as [c [Hc Hcr]]; [lia |].
    apply lookup_lt_Some in Hc. rewrite !length_app in Hc.
    destruct tl as [| t tl']; [simpl in Hc; lia |].
    destruct tl'; [| simpl in Htl1; lia].
    destruct (decide (j + 3 = length pre + length run)%nat) as [E | NE];
      [| simpl in Hc; lia].
    exfalso.
    destruct (Hj 3%nat) as [c' [Hc' Hcr']]; [lia |].
    rewrite E in Hc'.
    rewrite lookup_app_r in Hc' by lia.
    rewrite lookup_app_r in Hc' by lia.
    replace (length pre + length run - length pre - length run)%nat with 0%nat
      in Hc' by lia.
    simpl in Hc'. injection Hc' as <-.
    rewrite (Htl t eq_refl) in Hcr'. discriminate. }
  destruct (decide (j + 3 < length pre)%nat) as [Hin | Hout].
  - apply Hpre. exists j. intros k Hk.
    destruct (Hj k Hk) as [c [Hc Hcr]]. exists c. split; [| exact Hcr].
    rewrite lookup_app_l in Hc by lia. exact Hc.
  - destruct (decide (j < length pre)%nat) as [Hcross | Hafter]; [| lia].
    destruct (Hj (length pre - 1 - j)%nat) as [c [Hc Hcr]]; [lia |].
    replace (j + (length pre - 1 - j))%nat with (pred (length pre)) in Hc by lia.
    rewrite lookup_app_l in Hc by lia.
    rewrite <- last_lookup in Hc.
    rewrite (Hend c Hc) in Hcr. discriminate.
Qed.

(** The loop stops at the end of the first run of four or more CR/LF bytes:
    the bytes before the boundary are a prefix without such a run followed
    by a run, and the boundary is either the end of the buffer or a plain
    byte after a run of at least four. *)
Lemma boundary_scan_spec (rest done run0 : list ascii) (ret : Z) :
  ret = Z.of_nat (length (done ++ run0 ++ rest)) ->
  ends_plain done -> ~ has_run4 done -> crlf_run run0 ->
  exists pre run post,
    done ++ run0 ++ rest = pre ++ run ++ post /\
    boundary_scan rest (Z.of_nat (length (done ++ run0)))
      (Z.of_nat (length run0)) ret = Z.of_nat (length (pre ++ run)) /\
    ends_plain pre /\ ~ has_run4 pre /\ crlf_run run /\ starts_plain post /\
    (post = [] \/ (4 <= length run)%nat).
Proof.
  revert done run0.
  induction rest as [| c rest' IH]; intros done run0 Hret Hend Hno Hrun.
  - exists done, run0, []. simpl. rewrite Hret.
    repeat split; auto.
    + rewrite !app_nil_r. reflexivity.
    + intros c H. discriminate.
  - simpl. destruct (is_crlf c) eqn:Hc.
    + destruct (IH done (run0 ++ [c])) as (pre & run & post & Heq & Hb & Hrest).
      * rewrite Hret. rewrite <- !app_assoc. reflexivity.
      * exact Hend.
      * exact Hno.
      * apply Forall_app. split; [exact Hrun |]. constructor; [exact Hc | constructor].
      * exists pre, run, post. split.
        { rewrite <- Heq. rewrite <- !app_assoc. reflexivity. }
        split; [| exact Hrest].
        rewrite <- Hb. f_equal; rewrite ?length_app; simpl; lia.
    + destruct (4 <=? Z.of_nat (length run0)) eqn:H4.
      * exists done, run0, (c :: rest'). repeat split; auto.
        { intros d Hd. simpl in Hd. congruence. }
        { right. apply Z.leb_le in H4. lia. }
      * apply Z.leb_gt in H4.
        destruct (IH (done ++ run0 ++ [c]) []) as (pre & run & post & Heq & Hb & Hrest).
        { rewrite Hret. rewrite <- !app_assoc. reflexivity. }
        { rewrite app_assoc. apply ends_plain_snoc. exact Hc. }
        { apply no_run4_extend; auto; try (simpl; lia).
          intros d Hd. simpl in Hd. congruence. }
        { constructor. }
        exists pre, run, post. split.
        { rewrite <- Heq. rewrite <- !app_assoc. reflexivity. }
        split; [| exact Hrest].
        rewrite <- Hb. simpl. f_equal. rewrite !length_app. simpl. lia.
Qed.

Lemma find_boundary_spec (buffer : list ascii) :
  exists pre run post,
    buffer = pre ++ run ++ post /\
    find_boundary buffer (Z.of_nat (length buffer)) = Z.of_nat (length (pre ++ run)) /\
    ends_plain pre /\ ~ has_run4 pre /\ crlf_run run /\ starts_plain post /\
    (post = [] \/ (4 <= length run)%nat).
Proof.
  destruct (boundary_scan_spec buffer [] [] (Z.of_nat (length buffer)))
    as (pre & run & post & Heq & Hb & Hrest).
  - reflexivity.
  - apply ends_plain_nil.
  - apply no_run4_nil.
  - constructor.
  - exists pre, run, post. split; [exact Heq |]. split; [exact Hb | exact Hrest].
Qed.

(** The boundary on a request with a body, on one that ends with the blank
    line, and on one with short runs only. *)
Example boundary_before_body :
  find_boundary (c_lit "GET / HTTP/1.1\r\nHost: x\r\n\r\nbody") 31 = 27.
Proof. reflexivity. Qed.

Example boundary_run_at_end :
  find_boundary (c_lit "GET / HTTP/1.1\r\nHost: x\r\n\r\n") 27 = 27.
Proof. reflexivity. Qed.

Example boundary_short_runs :
  find_boundary (c_lit "a\r\n\rb\n\n\nc") 9 = 9.
Proof. reflexivity. Qed.

Example boundary_first_of_two :
  find_boundary (c_lit "a\r\n\r\nb\r\n\r\nc") 11 = 5.
Proof. reflexivity. Qed.

(** ** The copies made by the framer *)

(** [malloc (n + 1)], [memcpy] of [n] bytes and the terminating store leave
    a fresh block holding the [n] bytes and a NUL. *)
Lemma copy_out {A} (src : list ascii) (n : Z) (k : loc -> M A) (w : World) :
  0 <= n <= Z.of_nat (length src) ->
  (do p <- malloc (n + 1);
   do _ <- memcpy p src n;
   do _ <- poke p n NUL;
   k p) w
  = k (fresh (dom (heap w)))
      (set_heap (<[fresh (dom (heap w)) := take (Z.to_nat n) src ++ [NUL]]> (heap w)) w).
Proof.
  intros Hn. unfold bind, malloc, memcpy, poke. simpl.
  rewrite lookup_insert_eq.
  rewrite bool_decide_eq_true_2.
  2:{ rewrite length_replicate. lia. }
  simpl. rewrite lookup_insert_eq.
  assert (Hlen : length (take (Z.to_nat n) src
                   ++ drop (Z.to_nat n) (replicate (Z.to_nat (n + 1)) NUL))
                 = S (Z.to_nat n)).
  { rewrite length_app, length_take, length_drop, length_replicate. lia. }
  rewrite bool_decide_eq_true_2 by lia.
  f_equal. unfold set_heap. simpl. f_equal.
  rewrite !insert_insert_eq. f_equal.
  rewrite drop_replicate.
  replace (Z.to_nat (n + 1) - Z.to_nat n)%nat with 1%nat by lia. simpl.
  assert (Ht : Z.to_nat n = (length (take (Z.to_nat n) src) + 0)%nat).
  { rewrite length_take. lia. }
  rewrite Ht at 1.
  rewrite (insert_app_r (take (Z.to_nat n) src) [NUL] 0 NUL). reflexivity.
Qed.

Lemma fresh_not_live (h : heap_t) : h !! fresh (dom h) = None.
Proof. apply not_elem_of_dom. apply is_fresh. Qed.

Lemma find_boundary_range (buffer : list ascii) :
  0 <= find_boundary buffer (Z.of_nat (length buffer)) <= Z.of_nat (length buffer).
Proof.
  destruct (find_boundary_spec buffer) as (pre & run & post & Heq & Hb & _).
  assert (Hlen : length buffer = (length (pre ++ run) + length post)%nat).
  { rewrite Heq at 1. rewrite app_assoc, length_app. reflexivity. }
  rewrite Hb. lia.
Qed.

(** The conversation and the heap the framer leaves. *)
Lemma frame_request_result (c : WebserveConv) (buffer : list ascii) (w : World) :
  let len := Z.of_nat (length buffer) in
  let boundary := find_boundary buffer len in
  let hp := fresh (dom (heap w)) in
  let h1 := <[hp := take (Z.to_nat boundary) buffer ++ [NUL]]> (heap w) in
  let bp := fresh (dom h1) in
  frame_request (Some c) buffer len w
  = Running
      (Some (Conv.set_request_body_size (len - boundary)
               (Conv.set_request_body (Some bp)
                  (Conv.set_request_header_size boundary
                     (Conv.set_request_header (Some hp) c)))))
      (set_heap (<[bp := drop (Z.to_nat boundary) buffer ++ [NUL]]> h1) w).
Proof.
  intros len boundary hp h1 bp.
  pose proof (find_boundary_range buffer) as Hrange. fold len boundary in Hrange.
  unfold frame_request. fold len boundary.
  rewrite copy_out by lia. fold hp h1.
  rewrite copy_out.
  2:{ rewrite length_drop. lia. }
  cbn [heap set_heap]. fold bp.
  rewrite take_ge.
  2:{ rewrite length_drop. lia. }
  unfold pure, set_heap. reflexivity.
Qed.

(** C2.  For every buffer the framer stores two independently owned copies,
    the header and the body, which together are the buffer; the header ends
    where the first run of at least four consecutive CR/LF bytes ends, and
    when the buffer has no four consecutive CR/LF bytes the header is the
    whole buffer and the body is empty. *)
Theorem frame_request_splits_at_first_run
    (c : WebserveConv) (buffer : list ascii) (w : World) :
  exists header body hp bp c' w',
    frame_request (Some c) buffer (Z.of_nat (length buffer)) w
      = Running (Some c') w' /\
    header ++ body = buffer /\
    Conv.request_header c' = Some hp /\ Conv.request_body c' = Some bp /\
    hp <> bp /\ heap w !! hp = None /\ heap w !! bp = None /\
    heap w' !! hp = Some (header ++ [NUL]) /\
    heap w' !! bp = Some (body ++ [NUL]) /\
    Conv.request_header_size c' = Z.of_nat (length header) /\
    Conv.request_body_size c' = Z.of_nat (length body) /\
    (~ has_run4 buffer -> header = buffer /\ body = []) /\
    (has_run4 buffer ->
       exists pre run,
         header = pre ++ run /\ ~ has_run4 pre /\ ends_plain pre /\
         crlf_run run /\ (4 <= length run)%nat /\ starts_plain body).
Proof.
  destruct (find_boundary_spec buffer)
    as (pre & run & post & Heq & Hb & Hend & Hno & Hrun & Hpost & Hcase).
  pose proof (frame_request_result c buffer w) as Hres. cbv zeta in Hres.
  rewrite Hb, Nat2Z.id in Hres.
  assert (Htake : take (length (pre ++ run)) buffer = pre ++ run).
  { rewrite Heq, app_assoc. apply take_app_length. }
  assert (Hdrop : drop (length (pre ++ run)) buffer = post).
  { rewrite Heq, app_assoc. apply drop_app_length. }
  assert (Hlen : length buffer = (length (pre ++ run) + length post)%nat).
  { rewrite Heq at 1. rewrite app_assoc, length_app. reflexivity. }
  rewrite Htake, Hdrop in Hres.
  set (hp := fresh (dom (heap w))) in *.
  set (h1 := <[hp := (pre ++ run) ++ [NUL]]> (heap w)) in *.
  set (bp := fresh (dom h1)) in *.
  assert (Hne : hp <> bp).
  { intros E. pose proof (fresh_not_live h1) as Hf. fold bp in Hf.
    rewrite <- E in Hf. unfold h1 in Hf. rewrite lookup_insert_eq in Hf.
    discriminate. }
  exists (pre ++ run), post, hp, bp.
  eexists. eexists.
  split; [exact Hres |].
  cbn [heap set_heap Conv.request_header Conv.request_body
       Conv.request_header_size Conv.request_body_size
       Conv.set_request_header Conv.set_request_body
       Conv.set_request_header_size Conv.set_request_body_size].
  split; [rewrite Heq, app_assoc; reflexivity |].
  split; [reflexivity |]. split; [reflexivity |]. split; [exact Hne |].
  split; [apply fresh_not_live |].
  split.
  { pose proof (fresh_not_live h1) as Hf. fold bp in Hf. unfold h1 in Hf.
    rewrite lookup_insert_ne in Hf by exact Hne. exact Hf. }
  split.
  { rewrite lookup_insert_ne by (intros E; apply Hne; symmetry; exact E).
    unfold h1. apply lookup_insert_eq. }
  split; [apply lookup_insert_eq |].
  split; [reflexivity |]. split; [lia |].
  split.
  - intros Hnone. destruct Hcase as [-> | H4].
    + rewrite Heq, app_nil_r. split; reflexivity.
    + exfalso. apply Hnone. rewrite Heq. apply has_run4_middle; assumption.
  - intros Hsome. exists pre, run. repeat split; auto.
    destruct Hcase as [-> | H4]; [| exact H4].
    destruct (decide (4 <= length run)%nat) as [H4 | Hshort]; [exact H4 |].
    exfalso. rewrite Heq in Hsome.
    revert Hsome. apply no_run4_extend; auto; simpl; lia.
Qed.

(** ** Method classification *)

Lemma nat_of_ascii_eq (c d : ascii) : nat_of_ascii c = nat_of_ascii d -> c = d.
Proof.
  intros H. rewrite <- (ascii_nat_embedding c), <- (ascii_nat_embedding d).
  rewrite H. reflexivity.
Qed.

Lemma strncasecmp_zero (s2 s1 : list ascii) :
  Forall (fun c => tolower c <> NUL) s2 ->
  strncasecmp s1 s2 (length s2) = 0 <-> begins_with_ci s1 s2.
Proof.
  unfold begins_with_ci. revert s1.
  induction s2 as [| c2 s2 IH]; intros s1 Hnz.
  - simpl. split; reflexivity.
  - inversion Hnz as [| ? ? Hc2 Hrest]; subst.
    destruct s1 as [| c1 s1]; cbn [length strncasecmp hd tl take map].
    + replace (tolower NUL) with NUL by reflexivity.
      destruct (Ascii.eqb_spec NUL (tolower c2)) as [E | NE].
      * exfalso. apply Hc2. symmetry. exact E.
      * split; [| discriminate].
        intros H. exfalso. apply NE. apply nat_of_ascii_eq.
        change (nat_of_ascii NUL) with 0%nat in *. lia.
    + destruct (Ascii.eqb_spec (tolower c1) (tolower c2)) as [E | NE].
      * destruct (Ascii.eqb_spec (tolower c1) NUL) as [E0 | _].
        { exfalso. apply Hc2. rewrite <- E. exact E0. }
        rewrite (IH s1 Hrest). rewrite E. split.
        { intros H. f_equal. exact H. }
        { intros H. injection H. auto. }
      * split.
        { intros H. exfalso. apply NE. apply nat_of_ascii_eq. lia. }
        { intros H. exfalso. apply NE. injection H. auto. }
Qed.

Lemma classify_cases (buffer : list ascii) :
  classify buffer =
    if strncasecmp buffer GET_prefix 4 =? 0 then (REQUEST_GET, 4)
    else if strncasecmp buffer POST_prefix 5 =? 0 then (REQUEST_POST, 5)
    else (REQUEST_INVALID, 0).
Proof.
  unfold classify, requests, classify_loop.
  change (strlen "GET ") with 4%nat. change (strlen "POST ") with 5%nat.
  change (c_lit "GET ") with GET_prefix. change (c_lit "POST ") with POST_prefix.
  change ((0 <? REQUEST_NUM) && (REQUEST_INVALID =? REQUEST_INVALID)) with true.
  cbv iota.
  destruct (strncasecmp buffer GET_prefix 4 =? 0); [reflexivity |].
  change ((0 + 1 <? REQUEST_NUM) && (REQUEST_INVALID =? REQUEST_INVALID)) with true.
  cbv iota.
  destruct (strncasecmp buffer POST_prefix 5 =? 0); reflexivity.
Qed.

(** The loop over a table: once a type is found the remaining entries are
    skipped, so the first entry that matches wins. *)
Lemma classify_loop_found table request buffer type prefixsize :
  type <> REQUEST_INVALID ->
  classify_loop table request buffer type prefixsize = (type, prefixsize).
Proof.
  intros Hfound. destruct table as [| r table]; [reflexivity |].
  simpl. replace (type =? REQUEST_INVALID) with false.
  - rewrite andb_false_r. reflexivity.
  - symmetry. apply Z.eqb_neq. exact Hfound.
Qed.

Lemma classify_loop_first_match table request buffer :
  0 <= request -> request + Z.of_nat (length table) <= REQUEST_NUM ->
  classify_loop table request buffer REQUEST_INVALID 0 =
    match list_find
            (fun r => strncasecmp buffer (c_lit r) (strlen r) = 0) table with
    | Some (k, r) => (request + Z.of_nat k, Z.of_nat (strlen r))
    | None => (REQUEST_INVALID, 0)
    end.
Proof.
  revert request. induction table as [| r table IH]; intros request H0 Hn.
  - reflexivity.
  - cbn [classify_loop list_find]. cbn [length] in Hn.
    replace ((request <? REQUEST_NUM) && (REQUEST_INVALID =? REQUEST_INVALID))
      with true.
    2:{ symmetry. apply andb_true_iff. split; [apply Z.ltb_lt; lia | reflexivity]. }
    destruct (decide (strncasecmp buffer (c_lit r) (strlen r) = 0)) as [E | NE].
    + rewrite E. cbn. rewrite classify_loop_found.
      * f_equal. lia.
      * unfold REQUEST_INVALID. lia.
    + replace (strncasecmp buffer (c_lit r) (strlen r) =? 0) with false
        by (symmetry; apply Z.eqb_neq; exact NE).
      rewrite IH by lia.
      destruct (list_find _ table) as [[k r'] |]; cbn; [| reflexivity].
      f_equal. lia.
Qed.

Lemma GET_prefix_plain : Forall (fun c => tolower c <> NUL) GET_prefix.
Proof. repeat constructor; discriminate. Qed.

Lemma POST_prefix_plain : Forall (fun c => tolower c <> NUL) POST_prefix.
Proof. repeat constructor; discriminate. Qed.

Lemma get_and_post_exclude (buffer : list ascii) :
  begins_with_ci buffer GET_prefix -> begins_with_ci buffer POST_prefix -> False.
Proof.
  unfold begins_with_ci. intros HG HP.
  destruct buffer as [| a buffer]; [discriminate |].
  change (length GET_prefix) with 4%nat in HG.
  change (length POST_prefix) with 5%nat in HP.
  cbn [take map] in HG, HP.
  assert (EG : tolower a = "g"%char) by (injection HG; auto).
  assert (EP : tolower a = "p"%char) by (injection HP; auto).
  rewrite EG in EP. discriminate.
Qed.

(** Turning CR and LF into ['*'] does not change whether the buffer begins
    with a prefix that has none of the three bytes. *)
Lemma star_crlf_tolower (a x : ascii) :
  x <> "*"%char -> x <> CR -> x <> LF ->
  tolower (star_crlf a) = x <-> tolower a = x.
Proof.
  intros Hs Hcr Hlf. unfold star_crlf, is_crlf.
  destruct (Ascii.eqb_spec a CR) as [-> | _]; simpl.
  { split; intros H; exfalso; [apply Hs | apply Hcr]; rewrite <- H; reflexivity. }
  destruct (Ascii.eqb_spec a LF) as [-> | _]; simpl.
  { split; intros H; exfalso; [apply Hs | apply Hlf]; rewrite <- H; reflexivity. }
  reflexivity.
Qed.

Lemma begins_with_ci_star (buffer prefix : list ascii) :
  Forall (fun c => tolower c <> "*"%char /\ tolower c <> CR /\ tolower c <> LF) prefix ->
  begins_with_ci (map star_crlf buffer) prefix <-> begins_with_ci buffer prefix.
Proof.
  unfold begins_with_ci. revert buffer.
  induction prefix as [| p prefix IH]; intros buffer Hp.
  - simpl. split; reflexivity.
  - inversion Hp as [| ? ? [Hs [Hcr Hlf]] Hrest]; subst.
    destruct buffer as [| a buffer]; cbn [length take map]; [split; auto |].
    pose proof (star_crlf_tolower a (tolower p) Hs Hcr Hlf) as Hhead.
    pose proof (IH buffer Hrest) as Htail.
    split; intros H; injection H as Hhd Htl.
    + apply Hhead in Hhd. apply Htail in Htl. rewrite Hhd, Htl. reflexivity.
    + apply Hhead in Hhd. apply Htail in Htl. rewrite Hhd, Htl. reflexivity.
Qed.

Lemma GET_prefix_no_star :
  Forall (fun c => tolower c <> "*"%char /\ tolower c <> CR /\ tolower c <> LF) GET_prefix.
Proof. repeat constructor; discriminate. Qed.

Lemma POST_prefix_no_star :
  Forall (fun c => tolower c <> "*"%char /\ tolower c <> CR /\ tolower c <> LF) POST_prefix.
Proof. repeat constructor; discriminate. Qed.

(** C6.  The table is checked in order, GET before POST, ignoring the case
    of letters: the type is GET exactly when the buffer begins with "GET ",
    POST exactly when it begins with "POST " (and not with "GET "), and
    invalid exactly when it begins with neither. *)
Theorem request_type_by_prefix (buffer : list ascii) :
  requests = ["GET "; "POST "]%string /\
  (request_type buffer = REQUEST_GET <-> begins_with_ci buffer GET_prefix) /\
  (request_type buffer = REQUEST_POST <->
     begins_with_ci buffer POST_prefix /\ ~ begins_with_ci buffer GET_prefix) /\
  (request_type buffer = REQUEST_INVALID <->
     ~ begins_with_ci buffer GET_prefix /\ ~ begins_with_ci buffer POST_prefix).
Proof.
  split; [reflexivity |].
  unfold request_type. rewrite classify_cases.
  pose proof (strncasecmp_zero GET_prefix (map star_crlf buffer) GET_prefix_plain) as HG.
  pose proof (strncasecmp_zero POST_prefix (map star_crlf buffer) POST_prefix_plain) as HP.
  rewrite (begins_with_ci_star buffer GET_prefix GET_prefix_no_star) in HG.
  rewrite (begins_with_ci_star buffer POST_prefix POST_prefix_no_star) in HP.
  change (length GET_prefix) with 4%nat in HG.
  change (length POST_prefix) with 5%nat in HP.
  pose proof (get_and_post_exclude buffer) as Hex.
  destruct (Z.eqb_spec (strncasecmp (map star_crlf buffer) GET_prefix 4) 0) as [EG | NG].
  - apply HG in EG. simpl.
    repeat split; try discriminate; try tauto.
  - assert (~ begins_with_ci buffer GET_prefix) by tauto.
    destruct (Z.eqb_spec (strncasecmp (map star_crlf buffer) POST_prefix 5) 0) as [EP | NP].
    + apply HP in EP. simpl.
      repeat split; try discriminate; try tauto.
    + assert (~ begins_with_ci buffer POST_prefix) by tauto. simpl.
      repeat split; try discriminate; try tauto.
Qed.

(** ** What [web_read] does with a read *)

Lemma forbidden_writes (fd : Z) (w : World) :
  forbidden fd w = Running tt (log_event (EvWrite fd (c_array FORBIDDEN_TEXT)) w).
Proof.
  unfold forbidden, sys_write, FORBIDDEN_TEXT_LENGTH, sizeof.
  rewrite Nat2Z.id. rewrite bool_decide_eq_true_2 by lia.
  rewrite firstn_all. reflexivity.
Qed.

Lemma forbidden_then_exit {A} (fd : Z) (w : World) :
  (do _ <- forbidden fd; exit 3) w
  = @Exited A 3 (log_event (EvWrite fd (c_array FORBIDDEN_TEXT)) w).
Proof. unfold bind. rewrite forbidden_writes. reflexivity. Qed.

(** The framer always returns, and touches nothing but the heap. *)
Lemma frame_request_runs (conversation : option WebserveConv)
    (buffer : list ascii) (w : World) :
  exists conversation' w',
    frame_request conversation buffer (Z.of_nat (length buffer)) w
      = Running conversation' w' /\
    trace w' = trace w /\ open_fds w' = open_fds w /\
    (is_Some conversation' <-> is_Some conversation).
Proof.
  destruct conversation as [c |].
  - pose proof (frame_request_result c buffer w) as Hres. cbv zeta in Hres.
    rewrite Hres. eexists. eexists. split; [reflexivity |].
    repeat split; eauto.
  - exists None, w. simpl. unfold pure. repeat split; auto.
Qed.

Lemma read_buffer_length (data : list ascii) :
  length (read_buffer data) = length (take (Z.to_nat BUFSIZE) data).
Proof.
  unfold read_buffer, terminate_buffer.
  destruct ((0 <? _) && (_ <? BUFSIZE)); [reflexivity | apply length_insert].
Qed.

Lemma classify_type_range (buffer : list ascii) :
  fst (classify buffer) = REQUEST_INVALID \/
  fst (classify buffer) = REQUEST_GET \/ fst (classify buffer) = REQUEST_POST.
Proof.
  rewrite classify_cases.
  destruct (_ =? 0); [auto |]. destruct (_ =? 0); auto.
Qed.

Lemma web_read_fault (fd : Z) (conversation : option WebserveConv)
    (incoming : option (list ascii)) (w : World) :
  read_fault incoming ->
  exists w',
    web_read fd conversation incoming w = Exited 3 w' /\
    trace w' = trace w ++ [EvWrite fd (c_array FORBIDDEN_TEXT)] /\
    open_fds w' = open_fds w.
Proof.
  intros Hfault. unfold web_read.
  destruct incoming as [data |].
  - unfold sys_read.
    destruct data as [| d data'].
    + rewrite take_nil. cbv beta iota.
      change (Z.of_nat (length (@nil ascii))) with 0.
      change ((0 =? 0) || (0 =? -1)) with true. cbv iota.
      rewrite forbidden_then_exit. eexists. repeat split.
    + destruct Hfault as [Hnil | Hinv]; [discriminate |].
      cbv beta iota.
      set (got := take (Z.to_nat BUFSIZE) (d :: data')) in *.
      assert (Hpos : (0 < length got)%nat).
      { unfold got. change (Z.to_nat BUFSIZE) with (S (Z.to_nat (BUFSIZE - 1))).
        simpl. lia. }
      replace ((Z.of_nat (length got) =? 0) || (Z.of_nat (length got) =? -1))
        with false.
      2:{ symmetry. apply orb_false_iff. split; apply Z.eqb_neq; lia. }
      cbv iota.
      unfold request_type, read_buffer in Hinv. fold got in Hinv.
      set (buffer := terminate_buffer (Z.of_nat (length got)) got) in *.
      assert (Hlen : length buffer = length got).
      { unfold buffer, terminate_buffer.
        destruct ((0 <? _) && (_ <? BUFSIZE)); [reflexivity | apply length_insert]. }
      rewrite <- Hlen.
      destruct (frame_request_runs conversation buffer w)
        as (c' & w' & Hrun & Htr & Hop & _).
      unfold bind at 1. rewrite Hrun.
      destruct (classify (map star_crlf buffer)) as [type prefixsize].
      simpl in Hinv. subst type.
      change ((REQUEST_INVALID <=? REQUEST_INVALID)
              || (REQUEST_NUM <=? REQUEST_INVALID)) with true.
      cbv iota. rewrite forbidden_then_exit.
      eexists. split; [reflexivity |]. simpl. rewrite Htr, Hop. split; reflexivity.
  - unfold sys_read. cbv beta iota.
    change ((-1 =? 0) || (-1 =? -1)) with true. cbv iota.
    rewrite forbidden_then_exit. eexists. repeat split.
Qed.

(** A read that leaves room in the buffer hands the framer exactly the
    bytes received. *)
Lemma read_buffer_short (data : list ascii) :
  0 < Z.of_nat (length data) < BUFSIZE -> read_buffer data = data.
Proof.
  intros Hlen. unfold read_buffer.
  rewrite take_ge by lia. unfold terminate_buffer.
  replace ((0 <? Z.of_nat (length data)) && (Z.of_nat (length data) <? BUFSIZE))
    with true; [reflexivity |].
  symmetry. apply andb_true_iff. split; apply Z.ltb_lt; lia.
Qed.

(** [web_read] on a read that returned bytes: the framer runs on the
    buffer, then the request is typed, and an invalid type is a fault. *)
Lemma web_read_steps (fd : Z) (conversation : option WebserveConv)
    (data : list ascii) (w : World) :
  data <> [] ->
  web_read fd conversation (Some data) w =
  (do framed <- frame_request conversation (read_buffer data)
                  (Z.of_nat (length (read_buffer data)));
   if request_type (read_buffer data) =? REQUEST_INVALID
   then do _ <- forbidden fd; exit 3
   else pure (Conv.set_type (request_type (read_buffer data)) <$> framed)) w.
Proof.
  intros Hdata. unfold web_read, sys_read. cbv beta iota.
  set (got := take (Z.to_nat BUFSIZE) data).
  assert (Hpos : (0 < length got)%nat).
  { unfold got. destruct data as [| d data']; [contradiction |].
    change (Z.to_nat BUFSIZE) with (S (Z.to_nat (BUFSIZE - 1))). simpl. lia. }
  replace ((Z.of_nat (length got) =? 0) || (Z.of_nat (length got) =? -1))
    with false.
  2:{ symmetry. apply orb_false_iff. split; apply Z.eqb_neq; lia. }
  cbv iota. rewrite read_buffer_length. fold got.
  unfold request_type, read_buffer. fold got.
  set (buffer := terminate_buffer (Z.of_nat (length got)) got).
  unfold bind.
  destruct (frame_request conversation buffer (Z.of_nat (length got)) w)
    as [framed w1 | | |]; try reflexivity.
  pose proof (classify_type_range (map star_crlf buffer)) as Hrange.
  destruct (classify (map star_crlf buffer)) as [type prefixsize].
  cbn [fst] in *.
  destruct Hrange as [-> | [-> | ->]]; reflexivity.
Qed.

(** C10.  A read that fills the whole buffer makes the terminating store hit
    position 0, so the request is typed invalid whatever its bytes are, also
    when they begin with "GET " or "POST ", and [web_read] takes the
    forbidden path. *)
Theorem full_buffer_read_is_forbidden (fd : Z)
    (conversation : option WebserveConv) (data : list ascii) (w : World) :
  BUFSIZE <= Z.of_nat (length data) ->
  fst (sys_read (Some data) BUFSIZE) = BUFSIZE /\
  head (read_buffer data) = Some NUL /\
  request_type (read_buffer data) = REQUEST_INVALID /\
  exists w',
    web_read fd conversation (Some data) w = Exited 3 w' /\
    trace w' = trace w ++ [EvWrite fd (c_array FORBIDDEN_TEXT)].
Proof.
  intros Hfull.
  assert (Hgot : length (take (Z.to_nat BUFSIZE) data) = Z.to_nat BUFSIZE).
  { rewrite length_take. lia. }
  assert (Hbuf : read_buffer data
                 = <[0%nat := NUL]> (take (Z.to_nat BUFSIZE) data)).
  { unfold read_buffer, terminate_buffer. rewrite Hgot.
    rewrite Z2Nat.id by (unfold BUFSIZE; lia).
    rewrite Z.ltb_irrefl, andb_false_r. reflexivity. }
  assert (Hhead : exists rest, read_buffer data = NUL :: rest).
  { rewrite Hbuf.
    destruct (take (Z.to_nat BUFSIZE) data) as [| a rest] eqn:E.
    - exfalso. unfold BUFSIZE in Hgot. cbn [length] in Hgot. lia.
    - exists rest. reflexivity. }
  destruct Hhead as [rest Hrest].
  assert (Hinv : request_type (read_buffer data) = REQUEST_INVALID).
  { unfold request_type. rewrite Hrest. rewrite classify_cases.
    reflexivity. }
  split.
  { unfold sys_read. cbn [fst]. rewrite Hgot.
    apply Z2Nat.id. unfold BUFSIZE. lia. }
  split; [rewrite Hrest; reflexivity |].
  split; [exact Hinv |].
  destruct (web_read_fault fd conversation (Some data) w) as (w' & Hw & Htr & _).
  { simpl. right. exact Hinv. }
  exists w'. split; assumption.
Qed.

(** ** How the building blocks touch the descriptor table and the handle *)

Lemma bind_running {A B} (m : M A) (k : A -> M B) (w w' : World) (b : B) :
  bind m k w = Running b w' ->
  exists a w1, m w = Running a w1 /\ k a w1 = Running b w'.
Proof. unfold bind. destruct (m w); try discriminate. eauto. Qed.

(** The code that only allocates, frees and copies leaves everything but
    the heap alone. *)
Section HeapOnly.

Context {X : Type} (view : World -> X) (view_heap : ignores_heap view).

Lemma unchanged_pure {A} (a : A) : unchanged view (pure a).
Proof. intros w b w' H. unfold pure in H. congruence. Qed.

Lemma unchanged_bind {A B} (m : M A) (k : A -> M B) :
  unchanged view m -> (forall a, unchanged view (k a)) ->
  unchanged view (bind m k).
Proof.
  intros Hm Hk w b w' H.
  apply bind_running in H as (a & w1 & H1 & H2).
  rewrite (Hk a _ _ _ H2). eapply Hm. exact H1.
Qed.

Lemma unchanged_malloc n : unchanged view (malloc n).
Proof. intros w a w' H. unfold malloc in H. injection H as _ <-. apply view_heap. Qed.

Lemma unchanged_free p : unchanged view (free p).
Proof. intros w a w' H. unfold free in H. injection H as _ <-. apply view_heap. Qed.

Lemma unchanged_free_if p : unchanged view (free_if p).
Proof. destruct p; [apply unchanged_free | apply unchanged_pure]. Qed.

Lemma unchanged_memcpy dst src n : unchanged view (memcpy dst src n).
Proof.
  intros w a w' H. unfold memcpy in H.
  destruct (heap w !! dst); [| discriminate].
  destruct (bool_decide _); [| discriminate].
  injection H as _ <-. apply view_heap.
Qed.

Lemma unchanged_poke dst i c : unchanged view (poke dst i c).
Proof.
  intros w a w' H. unfold poke in H.
  destruct (heap w !! dst); [| discriminate].
  destruct (bool_decide _); [| discriminate].
  injection H as _ <-. apply view_heap.
Qed.

Lemma unchanged_frame_request conversation buffer ret :
  unchanged view (frame_request conversation buffer ret).
Proof.
  unfold frame_request. destruct conversation; [| apply unchanged_pure].
  repeat (apply unchanged_bind; [| intros ?]);
    auto using unchanged_malloc, unchanged_memcpy, unchanged_poke, unchanged_pure.
Qed.

Lemma unchanged_free_conversation c : unchanged view (free_conversation c).
Proof.
  unfold free_conversation.
  repeat (apply unchanged_bind; [| intros ?]); apply unchanged_free_if.
Qed.

Lemma unchanged_forbidden_exit {A} fd :
  unchanged view (do _ <- forbidden fd; @exit A 3).
Proof. intros w a w' H. rewrite forbidden_then_exit in H. discriminate. Qed.

(** [web_read] returns only on the path that neither writes nor exits. *)
Lemma unchanged_web_read fd conversation incoming :
  unchanged view (web_read fd conversation incoming).
Proof.
  unfold web_read. destruct (sys_read incoming BUFSIZE) as [ret buffer].
  destruct ((ret =? 0) || (ret =? -1)); [apply unchanged_forbidden_exit |].
  apply unchanged_bind; [apply unchanged_frame_request |].
  intros c. destruct (classify _) as [type prefixsize].
  destruct ((type <=? REQUEST_INVALID) || (REQUEST_NUM <=? type));
    [apply unchanged_forbidden_exit | apply unchanged_pure].
Qed.

Lemma unchanged_run_callback cb i webserve :
  unchanged view (run_callback cb i webserve).
Proof.
  intros w a w' H. unfold run_callback in H.
  destruct (conversation webserve !! i) as [c |]; [| discriminate].
  destruct (cb c (heap w)) as [[r c'] h'].
  injection H as _ <-. apply view_heap.
Qed.

End HeapOnly.

Lemma open_ignores_heap : ignores_heap open_fds.
Proof. intros h w. reflexivity. Qed.

Lemma trace_ignores_heap : ignores_heap trace.
Proof. intros h w. reflexivity. Qed.

Lemma keeps_open_free_conversation c : keeps_open (free_conversation c).
Proof. apply unchanged_free_conversation, open_ignores_heap. Qed.

Lemma keeps_open_web_read fd conversation incoming :
  keeps_open (web_read fd conversation incoming).
Proof. apply unchanged_web_read, open_ignores_heap. Qed.

Lemma keeps_trace_web_read fd conversation incoming :
  keeps_trace (web_read fd conversation incoming).
Proof. apply unchanged_web_read, trace_ignores_heap. Qed.

Lemma keeps_open_emit e : keeps_open (emit e).
Proof. intros w a w' H. unfold emit in H. injection H as _ <-. reflexivity. Qed.

Lemma same_frame_refl a : same_frame a a.
Proof. repeat split. Qed.

Lemma same_frame_store_slot i c a : same_frame (store_slot i c a) a.
Proof. destruct c; repeat split. Qed.

Lemma conversation_new_frame webserve fd w webserve' w' :
  conversation_new webserve fd w = Running webserve' w' ->
  same_frame webserve' webserve /\ open_fds w' = open_fds w.
Proof.
  unfold conversation_new. intros H.
  destruct ((0 <=? fd) && (fd <? FD_SETSIZE)).
  - apply bind_running in H as (u & w1 & H1 & H2).
    unfold pure in H2. injection H2 as <- <-.
    split; [repeat split |].
    destruct (conversation webserve !! fd).
    + eapply keeps_open_free_conversation. exact H1.
    + unfold pure in H1. congruence.
  - unfold pure in H. injection H as <- <-. split; [apply same_frame_refl | reflexivity].
Qed.

Lemma conversation_clear_frame webserve fd w webserve' w' :
  conversation_clear webserve fd w = Running webserve' w' ->
  same_frame webserve' webserve /\ open_fds w' = open_fds w.
Proof.
  unfold conversation_clear. intros H.
  destruct ((0 <? fd) && (fd <? FD_SETSIZE)).
  - destruct (conversation webserve !! fd).
    + apply bind_running in H as (u & w1 & H1 & H2).
      unfold pure in H2. injection H2 as <- <-.
      split; [repeat split |].
      eapply keeps_open_free_conversation. exact H1.
    + unfold pure in H. injection H as <- <-.
      split; [apply same_frame_refl | reflexivity].
  - unfold pure in H. injection H as <- <-. split; [apply same_frame_refl | reflexivity].
Qed.

Lemma run_callback_frame cb i webserve w result webserve' w' :
  run_callback cb i webserve w = Running (result, webserve') w' ->
  same_frame webserve' webserve /\ open_fds w' = open_fds w.
Proof.
  unfold run_callback. intros H.
  destruct (conversation webserve !! i) as [c |]; [| discriminate].
  destruct (cb c (heap w)) as [[r c'] h'].
  injection H as _ <- <-. split; [repeat split | reflexivity].
Qed.

Lemma sys_write_open fd data n w u w' :
  sys_write fd data n w = Running u w' -> open_fds w' = open_fds w.
Proof.
  unfold sys_write. destruct (bool_decide _); [| discriminate].
  apply keeps_open_emit.
Qed.

Lemma web_write_open fd conversation w u w' :
  web_write fd conversation w = Running u w' ->
  open_fds w' = open_fds w ∖ {[fd]}.
Proof.
  unfold web_write. intros H.
  apply bind_running in H as (h & w1 & H1 & H2).
  unfold get_heap in H1. injection H1 as _ <-.
  match type of H2 with
  | match ?chosen with _ => _ end _ = _ => destruct chosen as [[content len] |]
  end; [| discriminate].
  apply bind_running in H2 as (u1 & w2 & Ha & H2).
  apply bind_running in H2 as (u2 & w3 & Hb & H2).
  apply sys_write_open in Ha. apply sys_write_open in Hb.
  unfold sys_close in H2. injection H2 as _ <-. simpl.
  rewrite Hb, Ha. reflexivity.
Qed.

Lemma new_descriptor_spec answer w fd w' :
  new_descriptor answer w = Running fd w' ->
  fd = answer /\
  ((fd < 0 /\ w' = w) \/
   (0 <= fd /\ (fd ∉ open_fds w) /\ open_fds w' = {[fd]} ∪ open_fds w)).
Proof.
  unfold new_descriptor. intros H.
  destruct (Z.ltb_spec answer 0).
  - injection H as <- <-. split; [reflexivity |]. left. split; [lia | reflexivity].
  - destruct (bool_decide_reflect (answer ∈ open_fds w)); [discriminate |].
    injection H as <- <-. split; [reflexivity |]. right. repeat split; auto.
Qed.

(** ** The two readiness sets never share a descriptor *)

Lemma FD_ISSET_true fd s : FD_ISSET fd s = true <-> fd ∈ s.
Proof. unfold FD_ISSET. apply bool_decide_eq_true. Qed.

(** After the read statement for [i]: as before, except that [i] itself may
    have left the read set. *)
Lemma service_read_inv env read_fd_set write_fd_set i webserve w webserve' w' :
  loop_inv read_fd_set write_fd_set i webserve w ->
  service_read env read_fd_set i webserve w = Running webserve' w' ->
  server_inv webserve' w' /\
  (forall j, i < j -> j ∈ read_fd_set -> j ∈ active_read_fd_set webserve') /\
  (forall j, i <= j -> j ∈ write_fd_set -> j ∈ active_write_fd_set webserve') /\
  listenfd webserve' = listenfd webserve /\ quit webserve' = quit webserve.
Proof.
  intros [[Hdis Hopen Hlisten] Hrd Hwr] H. unfold service_read in H.
  destruct (FD_ISSET i read_fd_set) eqn:Hready.
  2:{ unfold pure in H. injection H as <- <-.
      repeat split; auto. intros j Hj. apply Hrd. lia. }
  apply FD_ISSET_true in Hready.
  destruct (Z.eqb_spec i (listenfd webserve)) as [Hl | Hl].
  - (* a connection request *)
    apply bind_running in H as (fd & w1 & Hacc & H).
    apply new_descriptor_spec in Hacc as [_ Hacc].
    destruct (Z.ltb_spec fd 0); [discriminate |].
    destruct Hacc as [[Hneg _] | (_ & Hfresh & Hop1)]; [lia |].
    apply bind_running in H as (rd & w2 & Hset & H).
    unfold fd_set_checked in Hset.
    destruct ((0 <=? fd) && (fd <? FD_SETSIZE)); [| discriminate].
    unfold pure in Hset. injection Hset as <- <-.
    apply conversation_new_frame in H as [(Hf1 & _ & Hf2 & Hf3 & Hf4 & _) Hop2].
    simpl in Hf1, Hf2, Hf3, Hf4.
    split.
    { split.
      - rewrite Hf2, Hf3. unfold FD_SET. clear -Hdis Hopen Hfresh. set_solver.
      - rewrite Hf2, Hf3, Hop2, Hop1. unfold FD_SET. clear -Hopen. set_solver.
      - rewrite Hf1, Hf2. unfold FD_SET. clear -Hlisten. set_solver. }
    split.
    { intros j Hj Hin. rewrite Hf2. unfold FD_SET.
      apply elem_of_union_r. apply Hrd; [lia | exact Hin]. }
    split.
    { intros j Hj Hin. rewrite Hf3. apply Hwr; assumption. }
    split; assumption.
  - (* a request on a data descriptor *)
    apply bind_running in H as (c & w1 & Hread & H).
    apply keeps_open_web_read in Hread.
    set (ws0 := set_active_read
                  (FD_CLR i (active_read_fd_set (store_slot i c webserve)))
                  (store_slot i c webserve)) in H.
    assert (Hrd0 : active_read_fd_set ws0 = FD_CLR i (active_read_fd_set webserve))
      by (destruct c; reflexivity).
    assert (Hwr0 : active_write_fd_set ws0 = active_write_fd_set webserve)
      by (destruct c; reflexivity).
    assert (Hl0 : listenfd ws0 = listenfd webserve) by (destruct c; reflexivity).
    assert (Hq0 : quit ws0 = quit webserve) by (destruct c; reflexivity).
    clearbody ws0.
    apply bind_running in H as ([r1 ws1] & w2 & Hcall & H).
    assert (Hc1 : same_frame ws1 ws0 /\ open_fds w2 = open_fds w1).
    { destruct (conversation_callback ws0) as [f |].
      - apply bind_running in Hcall as (u & w1' & He & Hcall).
        apply keeps_open_emit in He.
        apply run_callback_frame in Hcall as [Hf Ho].
        split; [exact Hf | congruence].
      - unfold pure in Hcall. injection Hcall as _ <- <-.
        split; [apply same_frame_refl | reflexivity]. }
    destruct Hc1 as [(Hl1 & _ & Hr1 & Hw1 & Hq1 & _) Ho1].
    apply bind_running in H as ([r2 ws2] & w3 & Hdef & H).
    assert (Hc2 : same_frame ws2 ws1 /\ open_fds w3 = open_fds w2).
    { destruct (negb _ || false).
      - apply bind_running in Hdef as (u & w2' & He & Hdef).
        apply keeps_open_emit in He.
        apply run_callback_frame in Hdef as [Hf Ho].
        split; [exact Hf | congruence].
      - unfold pure in Hdef. injection Hdef as _ <- <-.
        split; [apply same_frame_refl | reflexivity]. }
    destruct Hc2 as [(Hl2 & _ & Hr2 & Hw2 & Hq2 & _) Ho2].
    unfold pure in H. injection H as <- <-.
    assert (Hin : i ∈ active_read_fd_set webserve) by (apply Hrd; [lia | exact Hready]).
    split.
    { split; simpl;
        rewrite ?Hw2, ?Hr2, ?Hr1, ?Hw1, ?Hl2, ?Hl1, ?Ho2, ?Ho1, ?Hread,
                ?Hrd0, ?Hwr0, ?Hl0;
        unfold FD_SET, FD_CLR.
      - clear -Hdis. set_solver.
      - clear -Hdis Hopen Hin. set_solver.
      - clear -Hlisten Hl. set_solver. }
    split.
    { intros j Hj Hjin. simpl. rewrite Hr2, Hr1, Hrd0. unfold FD_CLR.
      apply elem_of_difference. split; [apply Hrd; [lia | exact Hjin] |].
      intros Hs. apply elem_of_singleton in Hs. lia. }
    split.
    { intros j Hj Hjin. simpl. rewrite Hw2, Hw1, Hwr0.
      unfold FD_SET. apply elem_of_union_r. apply Hwr; assumption. }
    split; simpl; congruence.
Qed.

Lemma service_write_inv read_fd_set write_fd_set i webserve w webserve' w' :
  server_inv webserve w ->
  (forall j, i < j -> j ∈ read_fd_set -> j ∈ active_read_fd_set webserve) ->
  (forall j, i <= j -> j ∈ write_fd_set -> j ∈ active_write_fd_set webserve) ->
  service_write write_fd_set i webserve w = Running webserve' w' ->
  loop_inv read_fd_set write_fd_set (i + 1) webserve' w' /\
  listenfd webserve' = listenfd webserve /\ quit webserve' = quit webserve.
Proof.
  intros [Hdis Hopen Hlisten] Hrd Hwr H. unfold service_write in H.
  destruct (FD_ISSET i write_fd_set) eqn:Hready.
  2:{ unfold pure in H. injection H as <- <-.
      split; [| split; reflexivity].
      split; [split; assumption | |].
      - intros j Hj. apply Hrd. lia.
      - intros j Hj. apply Hwr. lia. }
  apply FD_ISSET_true in Hready.
  assert (Hin : i ∈ active_write_fd_set webserve) by (apply Hwr; [lia | exact Hready]).
  apply bind_running in H as (u & w1 & Hsend & H).
  apply web_write_open in Hsend.
  apply conversation_clear_frame in H as [(Hl1 & _ & Hr1 & Hw1 & Hq1 & _) Ho1].
  simpl in Hl1, Hr1, Hw1, Hq1.
  split; [| split; assumption].
  split; [split |  |].
  - rewrite Hr1, Hw1. unfold FD_CLR. clear -Hdis. set_solver.
  - rewrite Hr1, Hw1, Ho1, Hsend. unfold FD_CLR. clear -Hdis Hopen Hin. set_solver.
  - rewrite Hl1, Hr1. exact Hlisten.
  - intros j Hj Hjin. rewrite Hr1. apply Hrd; [lia | exact Hjin].
  - intros j Hj Hjin. rewrite Hw1. unfold FD_CLR.
    apply elem_of_difference. split; [apply Hwr; [lia | exact Hjin] |].
    intros Hs. apply elem_of_singleton in Hs. lia.
Qed.

Lemma service_inv env read_fd_set write_fd_set i webserve w webserve' w' :
  loop_inv read_fd_set write_fd_set i webserve w ->
  service env read_fd_set write_fd_set i webserve w = Running webserve' w' ->
  loop_inv read_fd_set write_fd_set (i + 1) webserve' w' /\
  listenfd webserve' = listenfd webserve /\ quit webserve' = quit webserve.
Proof.
  intros Hinv H. unfold service in H.
  apply bind_running in H as (ws1 & w1 & H1 & H2).
  destruct (service_read_inv _ _ _ _ _ _ _ _ Hinv H1)
    as (Hs & Hrd & Hwr & Hl & Hq).
  destruct (service_write_inv _ _ _ _ _ _ _ Hs Hrd Hwr H2) as (Hloop & Hl' & Hq').
  split; [exact Hloop |]. split; congruence.
Qed.

Lemma poll_loop_inv env read_fd_set write_fd_set n i webserve w webserve' w' :
  loop_inv read_fd_set write_fd_set i webserve w ->
  poll_loop env read_fd_set write_fd_set n i webserve w = Running webserve' w' ->
  server_inv webserve' w'.
Proof.
  revert i webserve w.
  induction n as [| n IH]; intros i webserve w Hinv H; simpl in H.
  - unfold pure in H. injection H as <- <-. apply Hinv.
  - destruct (quit webserve).
    + unfold pure in H. injection H as <- <-. apply Hinv.
    + apply bind_running in H as (ws1 & w1 & H1 & H2).
      apply (service_inv _ _ _ _ _ _ _ _ Hinv) in H1 as [Hnext _].
      eapply IH; eassumption.
Qed.

Lemma poll_once_inv env webserve w webserve' w' :
  server_inv webserve w ->
  poll_once env webserve w = Running webserve' w' ->
  server_inv webserve' w'.
Proof.
  intros Hinv H. unfold poll_once in H.
  eapply poll_loop_inv; [| exact H].
  destruct Hinv as [Hdis Hopen Hlisten].
  split.
  - destruct (select_ret env <? 0); split; assumption.
  - intros j _ Hj. apply elem_of_intersection in Hj as [Hj _].
    destruct (select_ret env <? 0); exact Hj.
  - intros j _ Hj. apply elem_of_intersection in Hj as [Hj _].
    destruct (select_ret env <? 0); exact Hj.
Qed.

Lemma start_server_inv env port w webserve w' :
  start_server env port w = Running webserve w' ->
  server_inv webserve w'.
Proof.
  intros H. unfold start_server in H.
  apply bind_running in H as (fd & w1 & Hsock & H).
  apply new_descriptor_spec in Hsock as [_ Hsock].
  destruct (Z.ltb_spec fd 0); [discriminate |].
  destruct Hsock as [[Hneg _] | (_ & Hfresh & Hop)]; [lia |].
  destruct ((port <? 0) || (60000 <? port)); [discriminate |].
  destruct (bind_ret env <? 0); [discriminate |].
  destruct (listen_ret env <? 0); [discriminate |].
  unfold pure in H. injection H as <- <-.
  split; simpl; rewrite ?Hop; unfold FD_SET, FD_ZERO.
  - set_solver.
  - set_solver.
  - set_solver.
Qed.

Lemma reachable_inv webserve w : reachable webserve w -> server_inv webserve w.
Proof.
  induction 1 as [env port w ws w' Hstart
                 | env ws w ws' w' _ IH Hpoll
                 | usec ws w _ IH
                 | cb ws w _ IH
                 | ws w w' _ IH Hsub].
  - eapply start_server_inv. exact Hstart.
  - eapply poll_once_inv; eassumption.
  - destruct IH. split; assumption.
  - destruct IH. destruct cb; split; assumption.
  - destruct IH. split; assumption.
Qed.

(** C7.  In every state a server reaches from [start_server] through poll
    cycles, no descriptor is in the awaiting-read set and the awaiting-write
    set at once. *)
Theorem read_and_write_sets_disjoint (webserve : Webserve) (w : World) (fd : Z) :
  reachable webserve w ->
  ~ (fd ∈ active_read_fd_set webserve /\ fd ∈ active_write_fd_set webserve).
Proof.
  intros Hreach [Hr Hw].
  destruct (reachable_inv _ _ Hreach) as [Hdis _ _].
  exact (Hdis fd Hr Hw).
Qed.

(** ** A fault on one connection ends the process *)






(** ** The answer of the registered callback *)

(** Whatever a registered callback answers, the read statement goes on
    without running the default callback: from the read to the registration
    for writing the callback's run is the only event. *)
Lemma registered_callback_answer_ignored env read_fd_set i webserve w webserve' w' cb :
  conversation_callback webserve = Some cb ->
  i ∈ read_fd_set -> i <> listenfd webserve ->
  service_read env read_fd_set i webserve w = Running webserve' w' ->
  trace w' = trace w ++ [EvCallback i].
Proof.
  intros Hcb Hready Hdata H. unfold service_read in H.
  apply FD_ISSET_true in Hready. rewrite Hready in H.
  destruct (Z.eqb_spec i (listenfd webserve)); [contradiction |].
  apply bind_running in H as (c & w1 & Hread & H).
  apply keeps_trace_web_read in Hread.
  set (ws0 := set_active_read
                (FD_CLR i (active_read_fd_set (store_slot i c webserve)))
                (store_slot i c webserve)) in H.
  assert (Hcb0 : conversation_callback ws0 = Some cb)
    by (destruct c; exact Hcb).
  clearbody ws0.
  apply bind_running in H as ([r1 ws1] & w2 & Hcall & H).
  rewrite Hcb0 in Hcall.
  apply bind_running in Hcall as (u & w1' & He & Hcall).
  unfold emit in He. injection He as _ <-.
  pose proof (unchanged_run_callback trace trace_ignores_heap _ _ _ _ _ _ Hcall) as Htr.
  apply run_callback_frame in Hcall as [(_ & _ & _ & _ & _ & Hcb1) _].
  apply bind_running in H as ([r2 ws2] & w3 & Hdef & H).
  rewrite Hcb1, Hcb0 in Hdef. cbn in Hdef.
  unfold pure in Hdef, H. injection Hdef as _ _ <-. injection H as _ <-.
  rewrite Htr. cbn. rewrite Hread. reflexivity.
Qed.

(** ** The connection table: [conversation_new] and [conversation_clear] *)

Lemma free_if_heap p w :
  free_if p w = Running tt (set_heap (drop_block p (heap w)) w).
Proof. destruct p; [reflexivity |]. destruct w; reflexivity. Qed.

Lemma free_conversation_heap c w :
  free_conversation c w = Running tt (set_heap (release_buffers c (heap w)) w).
Proof.
  unfold free_conversation, bind. rewrite !free_if_heap. reflexivity.
Qed.

Lemma drop_block_lookup p h q :
  drop_block p h !! q = if decide (p = Some q) then None else h !! q.
Proof.
  destruct p as [r |]; simpl.
  - destruct (decide (Some r = Some q)) as [E | NE].
    + injection E as ->. apply lookup_delete_eq.
    + apply lookup_delete_ne. congruence.
  - destruct (decide (None = Some q)); [discriminate | reflexivity].
Qed.

Lemma release_buffers_owned c h q :
  q ∈ owned c -> release_buffers c h !! q = None.
Proof.
  unfold owned, release_buffers. intros Hq. rewrite !drop_block_lookup.
  repeat case_decide; try reflexivity.
  exfalso. rewrite !elem_of_app in Hq.
  destruct c as [? ? [hp |] ? [bp |] ? ? [rp |] ?]; simpl in *;
    repeat match goal with
           | H : _ \/ _ |- _ => destruct H
           | H : _ ∈ [_] |- _ => apply list_elem_of_singleton in H; subst
           | H : _ ∈ [] |- _ => inversion H
           end; congruence.
Qed.


(** [conversation_clear] on a descriptor strictly between 0 and
    [FD_SETSIZE]: the slot is emptied, the buffers the conversation owned
    are gone from the heap, and nothing else changes. *)
Lemma conversation_clear_releases webserve fd c w :
  0 < fd < FD_SETSIZE -> conversation webserve !! fd = Some c ->
  exists webserve' w',
    conversation_clear webserve fd w = Running webserve' w' /\
    conversation webserve' = delete fd (conversation webserve) /\
    same_frame webserve' webserve /\
    heap w' = release_buffers c (heap w) /\
    (forall q, q ∈ owned c -> heap w' !! q = None).
Proof.
  intros Hfd Hc. unfold conversation_clear.
  replace ((0 <? fd) && (fd <? FD_SETSIZE)) with true.
  2:{ symmetry. apply andb_true_iff. split; apply Z.ltb_lt; lia. }
  rewrite Hc. unfold bind. rewrite free_conversation_heap.
  eexists. eexists. split; [reflexivity |]. simpl.
  repeat split. intros q Hq. apply release_buffers_owned. exact Hq.
Qed.

(** Releasing an empty slot changes nothing, whatever the descriptor; so a
    second release in a row is a no-op. *)
Lemma conversation_clear_empty webserve fd w :
  conversation webserve !! fd = None ->
  conversation_clear webserve fd w = Running webserve w.
Proof.
  intros Hc. unfold conversation_clear. rewrite Hc.
  destruct ((0 <? fd) && (fd <? FD_SETSIZE)); reflexivity.
Qed.

Lemma conversation_clear_twice webserve fd w webserve' w' :
  0 < fd < FD_SETSIZE ->
  conversation_clear webserve fd w = Running webserve' w' ->
  conversation_clear webserve' fd w' = Running webserve' w'.
Proof.
  intros Hfd H. apply conversation_clear_empty.
  destruct (conversation webserve !! fd) as [c |] eqn:Hc.
  - destruct (conversation_clear_releases webserve fd c w Hfd Hc)
      as (ws2 & w2 & H2 & Hconv & _).
    rewrite H in H2. injection H2 as <- <-.
    rewrite Hconv. apply lookup_delete_eq.
  - rewrite (conversation_clear_empty _ _ _ Hc) in H. injection H as <- <-.
    exact Hc.
Qed.

(** [conversation_clear] leaves descriptor 0 alone, occupied or not. *)
Lemma conversation_clear_zero webserve w :
  conversation_clear webserve 0 w = Running webserve w.
Proof. reflexivity. Qed.

(** [conversation_new] on a descriptor of the table: the buffers of a stale
    conversation are freed, then the slot holds a zeroed record with the hit
    count in [hit] and [RESPONSE_ERROR] in [type]. *)
Lemma conversation_new_installs webserve fd w :
  0 <= fd < FD_SETSIZE ->
  exists webserve' w',
    conversation_new webserve fd w = Running webserve' w' /\
    conversation webserve' = <[fd := fresh_conversation webserve]> (conversation webserve) /\
    same_frame webserve' webserve /\
    (forall old, conversation webserve !! fd = Some old ->
       heap w' = release_buffers old (heap w) /\
       forall q, q ∈ owned old -> heap w' !! q = None) /\
    (conversation webserve !! fd = None -> w' = w).
Proof.
  intros Hfd. unfold conversation_new.
  replace ((0 <=? fd) && (fd <? FD_SETSIZE)) with true.
  2:{ symmetry. apply andb_true_iff. split; [apply Z.leb_le | apply Z.ltb_lt]; lia. }
  destruct (conversation webserve !! fd) as [old |] eqn:Hold.
  - unfold bind. rewrite free_conversation_heap.
    eexists. eexists. split; [reflexivity |]. simpl.
    repeat split; try discriminate.
    + injection H as <-. reflexivity.
    + injection H as <-. intros Hq. apply release_buffers_owned; exact Hq.
  - eexists. eexists. split; [reflexivity |]. simpl.
    repeat split; try discriminate.
Qed.

Lemma conversation_new_out_of_range webserve fd w :
  fd < 0 \/ FD_SETSIZE <= fd ->
  conversation_new webserve fd w = Running webserve w.
Proof.
  intros Hfd. unfold conversation_new.
  replace ((0 <=? fd) && (fd <? FD_SETSIZE)) with false; [reflexivity |].
  symmetry. apply andb_false_iff.
  destruct Hfd; [left; apply Z.leb_gt | right; apply Z.ltb_ge]; lia.
Qed.

(** ** [start_server] and the port check *)

(** With a kernel that grants the socket, the bind and the listen, the
    ports from 0 to 60000 start a server whose listening descriptor awaits
    reading, and every other port makes the process exit with status 3. *)
Lemma start_server_port_check env port w :
  0 <= socket_ret env -> socket_ret env ∉ open_fds w ->
  0 <= bind_ret env -> 0 <= listen_ret env ->
  (0 <= port <= 60000 ->
     exists w',
       start_server env port w = Running (check_connect (socket_ret env)) w' /\
       socket_ret env ∈ active_read_fd_set (check_connect (socket_ret env))) /\
  (port < 0 \/ 60000 < port -> exists w', start_server env port w = Exited 3 w').
Proof.
  intros Hs Hfresh Hb Hl.
  assert (Es : (socket_ret env <? 0) = false) by (apply Z.ltb_ge; lia).
  assert (Eb : (bind_ret env <? 0) = false) by (apply Z.ltb_ge; lia).
  assert (El : (listen_ret env <? 0) = false) by (apply Z.ltb_ge; lia).
  unfold start_server, bind, new_descriptor.
  rewrite Es. rewrite bool_decide_eq_false_2 by exact Hfresh.
  rewrite Es, Eb, El.
  split.
  - intros Hp.
    replace ((port <? 0) || (60000 <? port)) with false.
    2:{ symmetry. apply orb_false_iff. split; apply Z.ltb_ge; lia. }
    eexists. split; [reflexivity |]. simpl. unfold FD_SET. set_solver.
  - intros Hp.
    replace ((port <? 0) || (60000 <? port)) with true.
    2:{ symmetry. apply orb_true_iff. destruct Hp; [left | right]; apply Z.ltb_lt; lia. }
    eexists. reflexivity.
Qed.

(** ** [web_write] *)

(** The response of a conversation whose callback left a payload: the
    head announces [response_size] as the content length, exactly that many
    bytes of the payload follow, and the descriptor is closed. *)
Lemma web_write_sends fd c p blk w :
  Conv.response c = Some p -> heap w !! p = Some blk ->
  0 <= Conv.response_size c <= Z.of_nat (length blk) ->
  exists w',
    web_write fd (Some c) w = Running tt w' /\
    trace w' = trace w ++ [EvWrite fd (response_head (Conv.response_size c));
                           EvWrite fd (take (Z.to_nat (Conv.response_size c)) blk);
                           EvClose fd] /\
    Z.of_nat (length (take (Z.to_nat (Conv.response_size c)) blk))
      = Conv.response_size c /\
    open_fds w' = open_fds w ∖ {[fd]}.
Proof.
  intros Hp Hblk Hsize. unfold web_write, bind, get_heap.
  rewrite Hp, Hblk. cbn [fmap option_fmap option_map].
  set (head := response_head (Conv.response_size c)).
  unfold sys_write.
  rewrite Nat2Z.id. rewrite bool_decide_eq_true_2 by lia.
  rewrite firstn_all. unfold emit. rewrite bool_decide_eq_true_2 by lia.
  unfold sys_close. eexists. split; [reflexivity |].
  cbn [trace open_fds log_event set_open].
  rewrite <- !app_assoc. cbn [app]. repeat split.
  rewrite length_take. lia.
Qed.

(** What the default callback leaves in the conversation. *)
Lemma default_conv_callback_fills c h :
  exists p,
    default_conv_callback c h
    = (true,
       Conv.set_response_size 6 (Conv.set_response (Some p) c),
       <[p := c_lit "Okay\n" ++ [NUL; NUL]]> h) /\
    h !! p = None.
Proof. exists (fresh (dom h)). split; [reflexivity | apply fresh_not_live]. Qed.

(** * Concrete runs *)

Lemma started_runs :
  start_server kernel_ok 8080 boot
  = Running (handle_of started) (world_of started).
Proof. vm_compute. reflexivity. Qed.

Lemma connected_runs :
  poll_once (connects 4) (handle_of started) (world_of started)
  = Running (handle_of connected) (world_of connected).
Proof. vm_compute. reflexivity. Qed.

Lemma answered_runs :
  poll_once (sends 4 get_request) (handle_of connected) (world_of connected)
  = Running (handle_of answered) (world_of answered).
Proof. vm_compute. reflexivity. Qed.

Lemma answered_reachable : reachable (handle_of answered) (world_of answered).
Proof.
  apply (reach_poll (sends 4 get_request) (handle_of connected) (world_of connected));
    [| exact answered_runs].
  apply (reach_poll (connects 4) (handle_of started) (world_of started));
    [| exact connected_runs].
  apply (reach_start kernel_ok 8080 boot). exact started_runs.
Defined.

Lemma read_and_write_sets_disjoint_witness :
  4 ∈ active_write_fd_set (handle_of answered) /\
  ~ (4 ∈ active_read_fd_set (handle_of answered) /\
     4 ∈ active_write_fd_set (handle_of answered)).
Proof.
  split.
  - apply (proj1 (FD_ISSET_true 4 _)). vm_compute. reflexivity.
  - exact (read_and_write_sets_disjoint (handle_of answered) (world_of answered) 4
             answered_reachable).
Defined.

(** *** Two clients, one of them sending an unsupported method *)



(** *** A read that fills the buffer *)

Lemma full_buffer_read_witness :
  Z.of_nat (length full_get) = BUFSIZE /\
  begins_with_ci full_get GET_prefix /\
  request_type (read_buffer full_get) = REQUEST_INVALID /\
  exists w',
    web_read 4 None (Some full_get) boot = Exited 3 w' /\
    trace w' = trace boot ++ [EvWrite 4 (c_array FORBIDDEN_TEXT)].
Proof.
  split; [vm_compute; reflexivity |].
  split; [vm_compute; reflexivity |].
  assert (H : BUFSIZE <= Z.of_nat (length full_get)).
  { apply Z.leb_le. vm_compute. reflexivity. }
  destruct (full_buffer_read_is_forbidden 4 None full_get boot H)
    as (_ & _ & Hinv & Hex).
  split; assumption.
Defined.

(** *** A callback that answers false *)

(** C3.  The condition that should catch a false answer assigns instead of
    comparing, so the default callback is not run after a callback that
    answered false: the response fields stay as the callback left them, and
    the client gets the callback's payload, not the canned body. *)
Theorem false_answer_does_not_run_default :
  trace (world_of (read_get (Some refusing))) = [EvCallback 4] /\
  Conv.response <$> conversation (handle_of (read_get (Some refusing))) !! 4
    = Some None /\
  trace (world_of (serve_get (Some declining)))
    = [EvCallback 4; EvWrite 4 (response_head 2); EvWrite 4 (c_lit "no");
       EvClose 4].
Proof. repeat split; vm_compute; reflexivity. Qed.

(** *** The default answer *)

(** C5.  Under the default callback the payload of the response is six
    bytes, the text "Okay\n" and a NUL, announced as content length 6:
    [RESPONSE_LENGTH] is the [sizeof] of the literal, one more than its
    length. *)
Theorem default_reply_carries_nul :
  is_running (serve_get None) = true /\
  trace (world_of (serve_get None))
    = [EvCallback 4; EvWrite 4 (response_head 6);
       EvWrite 4 (c_lit "Okay\n" ++ [NUL]); EvClose 4] /\
  RESPONSE_LENGTH = Z.of_nat (strlen RESPONSE_CONTENT) + 1.
Proof. repeat split; vm_compute; reflexivity. Qed.

(** *** Port 0 *)

(** C4.  The port check lets 0 through: [start_server (0)] goes on to bind
    and listen and returns a handle. *)
Theorem port_zero_is_accepted :
  start_server kernel_ok 0 boot
  = Running (check_connect 3) (set_open ({[3]} ∪ open_fds boot) boot) /\
  3 ∈ active_read_fd_set (check_connect 3).
Proof.
  split; [vm_compute; reflexivity |].
  apply (proj1 (FD_ISSET_true 3 (active_read_fd_set (check_connect 3)))).
  vm_compute. reflexivity.
Qed.

(** *** A connection on descriptor 0 *)

(** C8.  [conversation_clear] tests [fd > 0], so it never releases slot 0:
    after the response to the client on descriptor 0 is written and the
    descriptor closed, the conversation is still in the table and its three
    buffers are still allocated. *)
Theorem release_skips_descriptor_zero :
  (forall webserve w, conversation_clear webserve 0 w = Running webserve w) /\
  is_running served_on_zero = true /\
  last (trace (world_of served_on_zero)) = Some (EvClose 0) /\
  owned <$> conversation (handle_of served_on_zero) !! 0
    = Some [1; 2; 3]%positive /\
  dom (heap (world_of served_on_zero)) = {[1; 2; 3]}%positive.
Proof.
  split; [intros; reflexivity |].
  repeat split; vm_compute; reflexivity.
Qed.

(** *** The record of a new conversation *)

(** C9.  [conversation_new] stores [RESPONSE_ERROR] in the [type] field;
    the result code [response_code] of the new record is 0, not the error
    default. *)
Theorem new_conversation_result_code (webserve : Webserve) (w : World) :
  exists webserve' w' c,
    conversation_new webserve 4 w = Running webserve' w' /\
    conversation webserve' !! 4 = Some c /\
    Conv.hit c = hit webserve /\
    Conv.type c = RESPONSE_ERROR /\
    Conv.response_code c = 0 /\
    Conv.response_code c <> RESPONSE_ERROR.
Proof.
  destruct (conversation_new_installs webserve 4 w) as (ws' & w' & Hrun & Hconv & _).
  { unfold FD_SETSIZE. lia. }
  exists ws', w', (fresh_conversation webserve).
  split; [exact Hrun |].
  split; [rewrite Hconv; apply lookup_insert_eq |].
  repeat split. discriminate.
Qed.

(** * Further properties of the server *)

(** ** The effect of one statement of the scan *)

Lemma run_callback_effect cb i webserve w result webserve' w' :
  run_callback cb i webserve w = Running (result, webserve') w' ->
  exists c c',
    conversation webserve !! i = Some c /\
    cb c (heap w) = (result, c', heap w') /\
    webserve' = store_slot i (Some c') webserve /\
    w' = set_heap (heap w') w.
Proof.
  unfold run_callback. intros H.
  destruct (conversation webserve !! i) as [c |]; [| discriminate].
  destruct (cb c (heap w)) as [[r c'] h'] eqn:Hcb.
  injection H as <- <- <-. exists c, c'.
  split; [reflexivity |]. split; [exact Hcb |]. split; reflexivity.
Qed.

Lemma frame_request_is_Some conversation buffer ret w framed w' :
  frame_request conversation buffer ret w = Running framed w' ->
  is_Some framed <-> is_Some conversation.
Proof.
  unfold frame_request. destruct conversation as [c |]; intros H.
  - repeat (apply bind_running in H as (? & ? & _ & H)).
    unfold pure in H. injection H as <- _. split; eauto.
  - unfold pure in H. injection H as <- _. reflexivity.
Qed.

Lemma web_read_is_Some fd conversation incoming w after w' :
  web_read fd conversation incoming w = Running after w' ->
  is_Some after <-> is_Some conversation.
Proof.
  unfold web_read. destruct (sys_read incoming BUFSIZE) as [ret buffer].
  destruct ((ret =? 0) || (ret =? -1)).
  { intros H. rewrite forbidden_then_exit in H. discriminate. }
  intros H. apply bind_running in H as (framed & w1 & Hf & H).
  apply frame_request_is_Some in Hf.
  destruct (classify _) as [type prefixsize].
  destruct ((type <=? REQUEST_INVALID) || (REQUEST_NUM <=? type)).
  { rewrite forbidden_then_exit in H. discriminate. }
  unfold pure in H. injection H as <- _.
  rewrite <- Hf. destruct framed; split; intros [x Hx]; try discriminate; eauto.
Qed.

Lemma service_read_idle env read_fd_set i webserve w :
  i ∉ read_fd_set ->
  service_read env read_fd_set i webserve w = Running webserve w.
Proof.
  intros Hi. unfold service_read.
  replace (FD_ISSET i read_fd_set) with false; [reflexivity |].
  symmetry. apply bool_decide_eq_false. exact Hi.
Qed.

Lemma service_write_idle write_fd_set i webserve w :
  i ∉ write_fd_set ->
  service_write write_fd_set i webserve w = Running webserve w.
Proof.
  intros Hi. unfold service_write.
  replace (FD_ISSET i write_fd_set) with false; [reflexivity |].
  symmetry. apply bool_decide_eq_false. exact Hi.
Qed.

(** The read statement on the listening descriptor, when [accept] hands out
    a descriptor of the table. *)
Lemma service_read_accept env read_fd_set webserve w :
  listenfd webserve ∈ read_fd_set ->
  0 <= accept_ret env < FD_SETSIZE -> accept_ret env ∉ open_fds w ->
  service_read env read_fd_set (listenfd webserve) webserve w
  = conversation_new
      (set_active_read (FD_SET (accept_ret env) (active_read_fd_set webserve))
         (set_hit (hit webserve + 1) webserve))
      (accept_ret env)
      (set_open ({[accept_ret env]} ∪ open_fds w) w).
Proof.
  intros Hready Hfd Hfresh. unfold service_read.
  apply FD_ISSET_true in Hready. rewrite Hready.
  rewrite Z.eqb_refl. unfold bind at 1. unfold new_descriptor.
  replace (accept_ret env <? 0) with false by (symmetry; apply Z.ltb_ge; lia).
  rewrite bool_decide_eq_false_2 by exact Hfresh.
  replace (accept_ret env <? 0) with false by (symmetry; apply Z.ltb_ge; lia).
  unfold bind at 1. unfold fd_set_checked.
  replace ((0 <=? accept_ret env) && (accept_ret env <? FD_SETSIZE)) with true.
  2:{ symmetry. apply andb_true_iff. split; [apply Z.leb_le | apply Z.ltb_lt]; lia. }
  reflexivity.
Qed.

(** What the read statement does to the handle when it returns. *)
Lemma service_read_effect env read_fd_set i webserve w webserve' w' :
  service_read env read_fd_set i webserve w = Running webserve' w' ->
  listenfd webserve' = listenfd webserve /\
  quit webserve' = quit webserve /\
  conversation_callback webserve' = conversation_callback webserve /\
  (((i ∉ read_fd_set) /\ webserve' = webserve /\ w' = w) \/
   (i ∈ read_fd_set /\ i = listenfd webserve /\
    0 <= accept_ret env < FD_SETSIZE /\ (accept_ret env ∉ open_fds w) /\
    hit webserve' = hit webserve + 1 /\
    active_read_fd_set webserve'
      = {[accept_ret env]} ∪ active_read_fd_set webserve /\
    active_write_fd_set webserve' = active_write_fd_set webserve /\
    conversation webserve'
      = <[accept_ret env := Conv.mk (hit webserve + 1) RESPONSE_ERROR
                              None 0 None 0 0 None 0]> (conversation webserve) /\
    open_fds w' = {[accept_ret env]} ∪ open_fds w) \/
   (i ∈ read_fd_set /\ i <> listenfd webserve /\
    hit webserve' = hit webserve /\
    active_read_fd_set webserve' = active_read_fd_set webserve ∖ {[i]} /\
    active_write_fd_set webserve' = {[i]} ∪ active_write_fd_set webserve /\
    is_Some (conversation webserve !! i) /\
    is_Some (conversation webserve' !! i) /\
    (forall j, j <> i -> conversation webserve' !! j = conversation webserve !! j) /\
    open_fds w' = open_fds w)).
Proof.
  intros H.
  destruct (decide (i ∈ read_fd_set)) as [Hready | Hidle].
  2:{ rewrite service_read_idle in H by exact Hidle. injection H as <- <-.
      repeat split. left. repeat split. exact Hidle. }
  destruct (decide (i = listenfd webserve)) as [-> | Hdata].
  - (* a connection request *)
    assert (Hacc : 0 <= accept_ret env < FD_SETSIZE /\ accept_ret env ∉ open_fds w).
    { unfold service_read in H.
      rewrite (proj2 (FD_ISSET_true _ _) Hready), Z.eqb_refl in H.
      apply bind_running in H as (fd & w1 & Hacc & H).
      apply new_descriptor_spec in Hacc as [-> Hacc].
      destruct (Z.ltb_spec (accept_ret env) 0); [discriminate |].
      destruct Hacc as [[Hneg _] | (_ & Hfresh & _)]; [lia |].
      apply bind_running in H as (rd & w2 & Hset & _).
      unfold fd_set_checked in Hset.
      destruct ((0 <=? accept_ret env) && (accept_ret env <? FD_SETSIZE)) eqn:Hb;
        [| discriminate].
      apply andb_true_iff in Hb as [_ Hb]. apply Z.ltb_lt in Hb.
      split; [lia | exact Hfresh]. }
    destruct Hacc as [Hfd Hfresh].
    rewrite service_read_accept in H by assumption.
    destruct (conversation_new_installs
                (set_active_read (FD_SET (accept_ret env) (active_read_fd_set webserve))
                   (set_hit (hit webserve + 1) webserve))
                (accept_ret env)
                (set_open ({[accept_ret env]} ∪ open_fds w) w) Hfd)
      as (ws2 & w2 & Hrun & Hconv & (Hl & Hh & Hr & Hw & Hq & Hc) & _).
    rewrite Hrun in H. injection H as <- <-.
    apply conversation_new_frame in Hrun as [_ Hop].
    simpl in Hl, Hh, Hr, Hw, Hq, Hc, Hconv.
    repeat split; try assumption.
    right. left. repeat split; try assumption; try lia.
  - (* a request on a data descriptor *)
    unfold service_read in H.
    rewrite (proj2 (FD_ISSET_true _ _) Hready) in H.
    destruct (Z.eqb_spec i (listenfd webserve)); [contradiction |].
    apply bind_running in H as (c & w1 & Hread & H).
    set (ws0 := set_active_read
                  (FD_CLR i (active_read_fd_set (store_slot i c webserve)))
                  (store_slot i c webserve)) in H.
    assert (Hrd0 : active_read_fd_set ws0 = active_read_fd_set webserve ∖ {[i]})
      by (destruct c; reflexivity).
    assert (Hwr0 : active_write_fd_set ws0 = active_write_fd_set webserve)
      by (destruct c; reflexivity).
    assert (Hl0 : listenfd ws0 = listenfd webserve) by (destruct c; reflexivity).
    assert (Hq0 : quit ws0 = quit webserve) by (destruct c; reflexivity).
    assert (Hh0 : hit ws0 = hit webserve) by (destruct c; reflexivity).
    assert (Hcb0 : conversation_callback ws0 = conversation_callback webserve)
      by (destruct c; reflexivity).
    assert (Hother0 : forall j, j <> i ->
              conversation ws0 !! j = conversation webserve !! j).
    { intros j Hj. destruct c; simpl.
      - apply lookup_insert_ne. congruence.
      - apply lookup_delete_ne. congruence. }
    assert (Hslot0 : conversation ws0 !! i = c).
    { destruct c; simpl; [apply lookup_insert_eq | apply lookup_delete_eq]. }
    pose proof (web_read_is_Some _ _ _ _ _ _ Hread) as Hsome.
    apply keeps_open_web_read in Hread.
    clearbody ws0.
    apply bind_running in H as ([r1 ws1] & w2 & Hcall & H).
    (* the registered callback, or none *)
    assert (Hstep1 :
      same_frame ws1 ws0 /\ open_fds w2 = open_fds w1 /\
      (forall j, j <> i -> conversation ws1 !! j = conversation ws0 !! j) /\
      (is_Some (conversation_callback ws0) ->
         is_Some c /\ is_Some (conversation ws1 !! i)) /\
      (conversation_callback ws0 = None -> ws1 = ws0)).
    { destruct (conversation_callback ws0) as [f |].
      - apply bind_running in Hcall as (u & w1' & He & Hcall).
        apply keeps_open_emit in He.
        pose proof (run_callback_frame _ _ _ _ _ _ _ Hcall) as [Hf Ho].
        apply run_callback_effect in Hcall as (c0 & c0' & Hc0 & _ & -> & _).
        split; [exact Hf |]. split; [congruence |].
        split; [intros j Hj; simpl; apply lookup_insert_ne; congruence |].
        split; [| discriminate].
        intros _. split; [rewrite <- Hslot0, Hc0; eauto |].
        simpl. rewrite lookup_insert_eq. eauto.
      - unfold pure in Hcall. injection Hcall as _ <- <-.
        split; [apply same_frame_refl |]. split; [reflexivity |].
        split; [reflexivity |]. split; [intros [x Hx]; discriminate | reflexivity]. }
    destruct Hstep1 as ((Hl1 & Hh1 & Hr1 & Hw1 & Hq1 & Hcb1) & Ho1 & Hother1 & Hsome1 & Hnone1).
    apply bind_running in H as ([r2 ws2] & w3 & Hdef & H).
    assert (Hstep2 :
      same_frame ws2 ws1 /\ open_fds w3 = open_fds w2 /\
      (forall j, j <> i -> conversation ws2 !! j = conversation ws1 !! j) /\
      is_Some c /\ is_Some (conversation ws2 !! i)).
    { rewrite Hcb1 in Hdef.
      destruct (conversation_callback ws0) as [f |] eqn:Hcb.
      - cbn in Hdef. unfold pure in Hdef. injection Hdef as _ <- <-.
        destruct Hsome1 as [Hc Hs]; [eauto |].
        split; [apply same_frame_refl |]. split; [reflexivity |].
        split; [reflexivity |]. split; assumption.
      - cbn in Hdef.
        pose proof (run_callback_frame _ _ _ _ _ _ _ Hdef) as [Hf Ho].
        apply run_callback_effect in Hdef as (c0 & c0' & Hc0 & _ & -> & _).
        split; [exact Hf |]. split; [exact Ho |].
        split; [intros j Hj; simpl; apply lookup_insert_ne; congruence |].
        split.
        + rewrite (Hnone1 eq_refl) in Hc0. rewrite <- Hslot0, Hc0. eauto.
        + simpl. rewrite lookup_insert_eq. eauto. }
    destruct Hstep2 as ((Hl2 & Hh2 & Hr2 & Hw2 & Hq2 & Hcb2) & Ho2 & Hother2 & Hc & Hslot2).
    unfold pure in H. injection H as <- <-. simpl.
    repeat split; try congruence.
    right. right. repeat split; try congruence.
    all: try (apply Hsome; exact Hc).
    all: try exact Hslot2.
    all: try (rewrite Hw2, Hw1, Hwr0; reflexivity).
    all: intros j Hj; rewrite Hother2, Hother1, Hother0 by exact Hj; reflexivity.
Qed.

Lemma conversation_clear_table webserve fd w webserve' w' :
  conversation_clear webserve fd w = Running webserve' w' ->
  conversation webserve'
  = if (0 <? fd) && (fd <? FD_SETSIZE) then delete fd (conversation webserve)
    else conversation webserve.
Proof.
  unfold conversation_clear. intros H.
  destruct ((0 <? fd) && (fd <? FD_SETSIZE)).
  - destruct (conversation webserve !! fd) as [c |] eqn:Hc.
    + apply bind_running in H as (u & w1 & _ & H).
      unfold pure in H. injection H as <- _. reflexivity.
    + unfold pure in H. injection H as <- _.
      symmetry. apply delete_id. exact Hc.
  - unfold pure in H. injection H as <- _. reflexivity.
Qed.

(** What the write statement does to the handle when it returns. *)
Lemma service_write_effect write_fd_set i webserve w webserve' w' :
  service_write write_fd_set i webserve w = Running webserve' w' ->
  listenfd webserve' = listenfd webserve /\
  quit webserve' = quit webserve /\
  conversation_callback webserve' = conversation_callback webserve /\
  hit webserve' = hit webserve /\
  active_read_fd_set webserve' = active_read_fd_set webserve /\
  (((i ∉ write_fd_set) /\ webserve' = webserve /\ w' = w) \/
   (i ∈ write_fd_set /\
    active_write_fd_set webserve' = active_write_fd_set webserve ∖ {[i]} /\
    open_fds w' = open_fds w ∖ {[i]} /\
    (forall j, j <> i -> conversation webserve' !! j = conversation webserve !! j) /\
    (0 < i < FD_SETSIZE -> conversation webserve' !! i = None))).
Proof.
  intros H.
  destruct (decide (i ∈ write_fd_set)) as [Hready | Hidle].
  2:{ rewrite service_write_idle in H by exact Hidle. injection H as <- <-.
      repeat split. left. repeat split. exact Hidle. }
  unfold service_write in H.
  rewrite (proj2 (FD_ISSET_true _ _) Hready) in H.
  apply bind_running in H as (u & w1 & Hsend & H).
  apply web_write_open in Hsend.
  pose proof (conversation_clear_table _ _ _ _ _ H) as Htable.
  apply conversation_clear_frame in H as [(Hl & Hh & Hr & Hw & Hq & Hcb) Hop].
  simpl in Hl, Hh, Hr, Hw, Hq, Hcb, Htable.
  repeat split; try assumption.
  right. repeat split; try assumption.
  - congruence.
  - intros j Hj. rewrite Htable.
    destruct ((0 <? i) && (i <? FD_SETSIZE)); [| reflexivity].
    apply lookup_delete_ne. congruence.
  - intros Hi. rewrite Htable.
    replace ((0 <? i) && (i <? FD_SETSIZE)) with true.
    + apply lookup_delete_eq.
    + symmetry. apply andb_true_iff. split; apply Z.ltb_lt; lia.
Qed.

(** ** Rules for the scan *)

Lemma service_effect_config env read_fd_set write_fd_set i webserve w webserve' w' :
  service env read_fd_set write_fd_set i webserve w = Running webserve' w' ->
  listenfd webserve' = listenfd webserve /\
  quit webserve' = quit webserve /\
  conversation_callback webserve' = conversation_callback webserve.
Proof.
  intros H. unfold service in H.
  apply bind_running in H as (ws1 & w1 & H1 & H2).
  apply service_read_effect in H1 as (Hl1 & Hq1 & Hc1 & _).
  apply service_write_effect in H2 as (Hl2 & Hq2 & Hc2 & _).
  repeat split; congruence.
Qed.

Lemma poll_loop_quit env read_fd_set write_fd_set n i webserve w :
  quit webserve = true ->
  poll_loop env read_fd_set write_fd_set n i webserve w = Running webserve w.
Proof. intros Hq. destruct n; simpl; [| rewrite Hq]; reflexivity. Qed.

Section ScanRules.

Context (env : Env) (read_fd_set write_fd_set : gset Z).

(** A property of handle and world that every serviced descriptor keeps is
    kept by the scan. *)
Lemma poll_loop_preserves (P : Webserve -> World -> Prop) :
  (forall i webserve w webserve' w',
     P webserve w ->
     service env read_fd_set write_fd_set i webserve w = Running webserve' w' ->
     P webserve' w') ->
  forall n i webserve w webserve' w',
    P webserve w ->
    poll_loop env read_fd_set write_fd_set n i webserve w = Running webserve' w' ->
    P webserve' w'.
Proof.
  intros Hstep. induction n as [| n IH]; intros i webserve w webserve' w' HP H.
  - simpl in H. unfold pure in H. injection H as <- <-. exact HP.
  - simpl in H. destruct (quit webserve).
    + unfold pure in H. injection H as <- <-. exact HP.
    + apply bind_running in H as (ws1 & w1 & H1 & H2).
      eapply IH; [| exact H2]. eapply Hstep; eassumption.
Qed.

(** A property that depends on how far the scan has come: a scan that is not
    cut short by the termination flag carries it from its first descriptor
    to the end. *)
Lemma poll_loop_advances (P : Z -> Webserve -> World -> Prop) :
  (forall i webserve w webserve' w',
     P i webserve w -> quit webserve = false ->
     service env read_fd_set write_fd_set i webserve w = Running webserve' w' ->
     P (i + 1) webserve' w') ->
  forall n i webserve w webserve' w',
    quit webserve = false -> P i webserve w ->
    poll_loop env read_fd_set write_fd_set n i webserve w = Running webserve' w' ->
    P (i + Z.of_nat n) webserve' w' /\ quit webserve' = false.
Proof.
  intros Hstep. induction n as [| n IH]; intros i webserve w webserve' w' Hq HP H.
  - simpl in H. unfold pure in H. injection H as <- <-.
    rewrite Z.add_0_r. split; assumption.
  - simpl in H. rewrite Hq in H.
    apply bind_running in H as (ws1 & w1 & H1 & H2).
    pose proof (service_effect_config _ _ _ _ _ _ _ _ H1) as (_ & Hq1 & _).
    replace (i + Z.of_nat (S n)) with ((i + 1) + Z.of_nat n) by lia.
    apply (IH (i + 1) ws1 w1 webserve' w'); [congruence | | exact H2].
    eapply Hstep; eassumption.
Qed.

(** Descriptors that are in neither snapshot are passed over. *)
Lemma service_idle i webserve w :
  i ∉ read_fd_set -> i ∉ write_fd_set ->
  service env read_fd_set write_fd_set i webserve w = Running webserve w.
Proof.
  intros Hr Hw. unfold service, bind.
  rewrite service_read_idle by exact Hr. apply service_write_idle. exact Hw.
Qed.

Lemma poll_loop_idle n i webserve w :
  (forall j, i <= j < i + Z.of_nat n -> (j ∉ read_fd_set) /\ (j ∉ write_fd_set)) ->
  poll_loop env read_fd_set write_fd_set n i webserve w = Running webserve w.
Proof.
  revert i. induction n as [| n IH]; intros i Hidle; [reflexivity |].
  simpl. destruct (quit webserve); [reflexivity |].
  unfold bind. destruct (Hidle i) as [Hr Hw]; [lia |].
  rewrite service_idle by assumption.
  apply IH. intros j Hj. apply Hidle. lia.
Qed.

Lemma bind_returns {A} (m : M A) (k : A -> M A) (w : World) :
  (forall a w1, k a w1 = Running a w1) -> bind m k w = m w.
Proof. intros Hk. unfold bind. destruct (m w); auto. Qed.

(** With one descriptor in the snapshots the scan is the service of that
    descriptor. *)
Lemma poll_loop_single n i0 i webserve w :
  quit webserve = false ->
  i0 <= i < i0 + Z.of_nat n ->
  (forall j, j <> i -> (j ∉ read_fd_set) /\ (j ∉ write_fd_set)) ->
  poll_loop env read_fd_set write_fd_set n i0 webserve w
  = service env read_fd_set write_fd_set i webserve w.
Proof.
  intros Hq. revert i0. induction n as [| n IH]; intros i0 Hi Hidle; [lia |].
  simpl. rewrite Hq.
  destruct (Z.eq_dec i0 i) as [-> | Hne].
  - apply bind_returns. intros ws1 w1. apply poll_loop_idle.
    intros j Hj. apply Hidle. lia.
  - unfold bind. destruct (Hidle i0 Hne) as [Hr Hw].
    rewrite service_idle by assumption.
    apply IH; [lia | exact Hidle].
Qed.

End ScanRules.

(** ** [web_read] on a request it accepts *)

(** X1.  [web_read] on a read that leaves room in the buffer and is
    classified as a supported method: nothing is written, the conversation
    gets the type and NUL-terminated copies of header and body in two new
    blocks, its other fields and every block already allocated stay as they
    were. *)
Theorem web_read_stores_request (fd : Z) (c : WebserveConv)
    (data : list ascii) (w : World) :
  0 < Z.of_nat (length data) < BUFSIZE ->
  request_type data <> REQUEST_INVALID ->
  exists c' w' hp bp boundary,
    web_read fd (Some c) (Some data) w = Running (Some c') w' /\
    Conv.type c' = request_type data /\
    (Conv.type c' = REQUEST_GET \/ Conv.type c' = REQUEST_POST) /\
    Conv.hit c' = Conv.hit c /\
    Conv.response c' = Conv.response c /\
    Conv.response_size c' = Conv.response_size c /\
    Conv.response_code c' = Conv.response_code c /\
    Conv.request_header c' = Some hp /\ Conv.request_body c' = Some bp /\
    hp <> bp /\
    (boundary <= length data)%nat /\
    Conv.request_header_size c' = Z.of_nat boundary /\
    Conv.request_body_size c' = Z.of_nat (length data - boundary) /\
    heap w' !! hp = Some (take boundary data ++ [NUL]) /\
    heap w' !! bp = Some (drop boundary data ++ [NUL]) /\
    (forall q blk, heap w !! q = Some blk -> heap w' !! q = Some blk) /\
    trace w' = trace w /\ open_fds w' = open_fds w.
Proof.
  intros Hlen Htype.
  assert (Hdata : data <> []) by (intros ->; simpl in Hlen; lia).
  rewrite (web_read_steps fd (Some c) data w Hdata).
  rewrite (read_buffer_short data Hlen).
  pose proof (frame_request_result c data w) as Hres. cbv zeta in Hres.
  pose proof (find_boundary_range data) as Hrange.
  set (b := find_boundary data (Z.of_nat (length data))) in *.
  set (hp := fresh (dom (heap w))) in *.
  set (h1 := <[hp := take (Z.to_nat b) data ++ [NUL]]> (heap w)) in *.
  set (bp := fresh (dom h1)) in *.
  assert (Hhp : heap w !! hp = None) by apply fresh_not_live.
  assert (Hbp : h1 !! bp = None) by apply fresh_not_live.
  assert (Hne : hp <> bp).
  { intros E. rewrite <- E in Hbp. unfold h1 in Hbp.
    rewrite lookup_insert_eq in Hbp. discriminate. }
  unfold bind. rewrite Hres.
  replace (request_type data =? REQUEST_INVALID) with false
    by (symmetry; apply Z.eqb_neq; exact Htype).
  eexists. eexists. exists hp, bp, (Z.to_nat b).
  split; [reflexivity |].
  cbn [fmap option_fmap option_map heap set_heap trace open_fds
       Conv.type Conv.hit Conv.response Conv.response_size Conv.response_code
       Conv.request_header Conv.request_body Conv.request_header_size
       Conv.request_body_size Conv.set_type Conv.set_request_header
       Conv.set_request_body Conv.set_request_header_size
       Conv.set_request_body_size].
  split; [reflexivity |].
  split.
  { unfold request_type in *.
    destruct (classify_type_range (map star_crlf data)) as [E | E]; tauto. }
  repeat (split; [reflexivity |]).
  split; [exact Hne |].
  split; [lia |].
  split; [lia |].
  split; [lia |].
  split.
  { rewrite lookup_insert_ne by (intros E; apply Hne; symmetry; exact E).
    unfold h1. apply lookup_insert_eq. }
  split; [apply lookup_insert_eq |].
  split; [| split; reflexivity].
  intros q blk Hq.
  rewrite lookup_insert_ne by (intros <-; unfold h1 in Hbp;
    rewrite lookup_insert_ne in Hbp by exact Hne; congruence).
  unfold h1. rewrite lookup_insert_ne by (intros <-; congruence). exact Hq.
Qed.

(** ** [web_write] *)

Lemma sys_write_heap fd data n w u w' :
  sys_write fd data n w = Running u w' -> heap w' = heap w.
Proof.
  unfold sys_write. destruct (bool_decide _); [| discriminate].
  unfold emit. intros H. injection H as _ <-. reflexivity.
Qed.

(** [web_write] allocates and frees nothing. *)
Lemma unchanged_web_write_heap fd conversation w u w' :
  web_write fd conversation w = Running u w' -> heap w' = heap w.
Proof.
  unfold web_write. intros H.
  apply bind_running in H as (h & w1 & H1 & H2).
  unfold get_heap in H1. injection H1 as _ <-.
  match type of H2 with
  | match ?chosen with _ => _ end _ = _ => destruct chosen as [[content len] |]
  end; [| discriminate].
  apply bind_running in H2 as (u1 & w2 & Ha & H2).
  apply bind_running in H2 as (u2 & w3 & Hb & H2).
  apply sys_write_heap in Ha. apply sys_write_heap in Hb.
  unfold sys_close in H2. injection H2 as _ <-. simpl. congruence.
Qed.

Lemma decimal_version : decimal VERSION = c_lit "23".
Proof. vm_compute. reflexivity. Qed.

(** The head of a response, with the content length left open. *)
Lemma response_head_text (n : Z) :
  response_head n
  = c_lit "HTTP/1.1 200 OK\nServer: nweb/23.0\nContent-Length: "
    ++ decimal n
    ++ c_lit "\nConnection: close\nContent-Type: text/html\n\n".
Proof.
  unfold response_head. rewrite decimal_version.
  generalize (decimal n). intros d.
  change (c_lit RESPONSE_TYPE) with (c_lit "text/html").
  cbn [c_lit app]. rewrite <- ?app_assoc. cbn [app]. reflexivity.
Qed.

(** X2.  When the conversation has a payload, [web_write] announces
    [response_size] as the content length in decimal, sends exactly that
    many bytes of the payload after the head, and closes the descriptor;
    it frees nothing. *)
Theorem web_write_sends_announced_length (fd : Z) (c : WebserveConv)
    (p : loc) (blk : list ascii) (w : World) :
  Conv.response c = Some p -> heap w !! p = Some blk ->
  0 <= Conv.response_size c <= Z.of_nat (length blk) ->
  exists w' payload,
    web_write fd (Some c) w = Running tt w' /\
    trace w' = trace w ++ [EvWrite fd (response_head (Conv.response_size c));
                           EvWrite fd payload; EvClose fd] /\
    response_head (Conv.response_size c)
      = c_lit "HTTP/1.1 200 OK\nServer: nweb/23.0\nContent-Length: "
        ++ decimal (Conv.response_size c)
        ++ c_lit "\nConnection: close\nContent-Type: text/html\n\n" /\
    payload = take (Z.to_nat (Conv.response_size c)) blk /\
    Z.of_nat (length payload) = Conv.response_size c /\
    open_fds w' = open_fds w ∖ {[fd]} /\
    heap w' = heap w.
Proof.
  intros Hp Hblk Hsize.
  destruct (web_write_sends fd c p blk w Hp Hblk Hsize) as (w' & Hrun & Htr & Hlen & Hop).
  exists w', (take (Z.to_nat (Conv.response_size c)) blk).
  split; [exact Hrun |]. split; [exact Htr |].
  split; [apply response_head_text |].
  split; [reflexivity |]. split; [exact Hlen |]. split; [exact Hop |].
  apply (unchanged_web_write_heap fd (Some c) w tt w' Hrun).
Qed.

Lemma sys_write_all fd data w :
  sys_write fd data (Z.of_nat (length data)) w
  = Running tt (log_event (EvWrite fd data) w).
Proof.
  unfold sys_write. rewrite Nat2Z.id.
  rewrite bool_decide_eq_true_2 by lia. rewrite firstn_all. reflexivity.
Qed.

(** X3.  A conversation without payload, or no conversation at all, is
    answered with the canned content: the six bytes of the literal with its
    NUL, announced as content length 6; [response_size] is not looked at. *)
Theorem web_write_without_payload (fd : Z) (conversation : option WebserveConv)
    (w : World) :
  (forall c, conversation = Some c -> Conv.response c = None) ->
  exists w',
    web_write fd conversation w = Running tt w' /\
    trace w' = trace w ++ [EvWrite fd (response_head 6);
                           EvWrite fd (c_lit "Okay\n" ++ [NUL]); EvClose fd] /\
    open_fds w' = open_fds w ∖ {[fd]} /\
    heap w' = heap w.
Proof.
  intros Hnone.
  assert (Hrun : web_write fd conversation w
                 = (do _ <- sys_write fd (response_head RESPONSE_LENGTH)
                              (Z.of_nat (length (response_head RESPONSE_LENGTH)));
                    do _ <- sys_write fd (c_array RESPONSE_CONTENT) RESPONSE_LENGTH;
                    sys_close fd) w).
  { unfold web_write, bind at 1, get_heap.
    destruct conversation as [c |]; [| reflexivity].
    rewrite (Hnone c eq_refl). reflexivity. }
  rewrite Hrun. unfold bind. rewrite sys_write_all.
  unfold RESPONSE_LENGTH at 2, sizeof. rewrite sys_write_all.
  unfold sys_close. eexists. split; [reflexivity |].
  cbn [trace open_fds heap log_event set_open].
  rewrite <- !app_assoc. cbn [app].
  repeat split.
Qed.

(** ** The default callback *)

(** X4.  [default_conv_callback] always answers true and points the
    conversation at a new block of seven bytes that begins with the canned
    content and its NUL, with [response_size] 6; it frees nothing, so a
    payload the conversation pointed to before stays allocated, and it
    leaves the other fields alone. *)
Theorem default_callback_installs_canned_payload (c : WebserveConv) (h : heap_t) :
  exists c' h' p blk,
    default_conv_callback c h = (true, c', h') /\
    Conv.response c' = Some p /\ Conv.response_size c' = 6 /\
    h !! p = None /\ h' !! p = Some blk /\
    length blk = 7%nat /\ take 6 blk = c_lit "Okay\n" ++ [NUL] /\
    (forall q, q <> p -> h' !! q = h !! q) /\
    Conv.hit c' = Conv.hit c /\ Conv.type c' = Conv.type c /\
    Conv.response_code c' = Conv.response_code c /\
    Conv.request_header c' = Conv.request_header c /\
    Conv.request_header_size c' = Conv.request_header_size c /\
    Conv.request_body c' = Conv.request_body c /\
    Conv.request_body_size c' = Conv.request_body_size c.
Proof.
  destruct (default_conv_callback_fills c h) as (p & Hrun & Hfresh).
  eexists. eexists. exists p. eexists.
  split; [exact Hrun |]. cbn.
  split; [reflexivity |]. split; [reflexivity |]. split; [exact Hfresh |].
  split; [apply lookup_insert_eq |].
  split; [reflexivity |]. split; [reflexivity |].
  split; [| repeat split].
  intros q Hq. apply lookup_insert_ne. congruence.
Qed.

(** ** The connection table *)

Lemma conversation_clear_runs webserve fd w :
  exists webserve' w', conversation_clear webserve fd w = Running webserve' w'.
Proof.
  unfold conversation_clear.
  destruct ((0 <? fd) && (fd <? FD_SETSIZE)); [| eauto].
  destruct (conversation webserve !! fd); [| eauto].
  unfold bind. rewrite free_conversation_heap. eauto.
Qed.


(** X6.  Releasing twice has the effect of releasing once, for every
    descriptor, in or out of the table's bounds. *)
Theorem conversation_clear_idempotent (webserve : Webserve) (fd : Z) (w : World) :
  (do webserve' <- conversation_clear webserve fd;
   conversation_clear webserve' fd) w
  = conversation_clear webserve fd w.
Proof.
  destruct (conversation_clear_runs webserve fd w) as (ws' & w' & Hrun).
  unfold bind. rewrite Hrun.
  destruct (decide (0 < fd < FD_SETSIZE)) as [Hin | Hout].
  - apply (conversation_clear_twice webserve fd w ws' w' Hin Hrun).
  - unfold conversation_clear.
    replace ((0 <? fd) && (fd <? FD_SETSIZE)) with false; [reflexivity |].
    symmetry. apply andb_false_iff.
    destruct (Z.ltb_spec 0 fd); [right; apply Z.ltb_ge; lia | left; reflexivity].
Qed.

(** X7.  On an empty slot of a descriptor from 1 to [FD_SETSIZE] - 1,
    [conversation_new] followed by [conversation_clear] gives back the
    handle and the world unchanged. *)
Theorem conversation_new_then_clear (webserve : Webserve) (fd : Z) (w : World) :
  0 < fd < FD_SETSIZE -> conversation webserve !! fd = None ->
  (do created <- conversation_new webserve fd;
   conversation_clear created fd) w
  = Running webserve w.
Proof.
  intros Hfd Hempty.
  unfold bind, conversation_new.
  replace ((0 <=? fd) && (fd <? FD_SETSIZE)) with true.
  2:{ symmetry. apply andb_true_iff. split; [apply Z.leb_le | apply Z.ltb_lt]; lia. }
  rewrite Hempty. cbn [pure bind].
  unfold conversation_clear.
  replace ((0 <? fd) && (fd <? FD_SETSIZE)) with true.
  2:{ symmetry. apply andb_true_iff. split; apply Z.ltb_lt; lia. }
  cbn [store_slot set_conversation conversation].
  rewrite lookup_insert_eq. unfold bind. rewrite free_conversation_heap.
  cbn [pure store_slot set_conversation conversation].
  rewrite delete_insert_id by exact Hempty.
  destruct webserve, w. reflexivity.
Qed.


(** ** Starting *)


(** ** Whole poll cycles *)

(** X10.  A cycle in which [select] fails, or that starts with the termination
    flag set, services no descriptor: it returns the handle with the flag
    set and leaves the world as it was. *)
Theorem poll_once_stops (env : Env) (webserve : Webserve) (w : World) :
  select_ret env < 0 \/ quit webserve = true ->
  poll_once env webserve w = Running (set_quit true webserve) w.
Proof.
  intros Hstop. unfold poll_once.
  destruct (Z.ltb_spec (select_ret env) 0) as [Hs | Hs].
  - apply poll_loop_quit. reflexivity.
  - destruct Hstop as [Hneg | Hq]; [lia |].
    rewrite poll_loop_quit by exact Hq.
    destruct webserve. simpl in Hq. subst. reflexivity.
Qed.

(** X11.  A cycle in which no registered descriptor is ready changes nothing. *)
Theorem poll_once_nothing_ready (env : Env) (webserve : Webserve) (w : World) :
  0 <= select_ret env ->
  active_read_fd_set webserve ∩ ready_read env = ∅ ->
  active_write_fd_set webserve ∩ ready_write env = ∅ ->
  poll_once env webserve w = Running webserve w.
Proof.
  intros Hs Hr Hw. unfold poll_once.
  replace (select_ret env <? 0) with false by (symmetry; apply Z.ltb_ge; lia).
  apply poll_loop_idle. intros j _. rewrite Hr, Hw. split; apply not_elem_of_empty.
Qed.

(** X12.  When one descriptor of the table is the only one ready, the cycle is
    the service of that descriptor: its read statement, then its write
    statement. *)
Theorem poll_once_single_ready (env : Env) (webserve : Webserve) (w : World) (i : Z) :
  quit webserve = false -> 0 <= select_ret env ->
  0 <= i < FD_SETSIZE ->
  active_read_fd_set webserve ∩ ready_read env ⊆ {[i]} ->
  active_write_fd_set webserve ∩ ready_write env ⊆ {[i]} ->
  poll_once env webserve w
  = (do served <- service_read env (active_read_fd_set webserve ∩ ready_read env)
                    i webserve;
     service_write (active_write_fd_set webserve ∩ ready_write env) i served) w.
Proof.
  intros Hq Hs Hi Hr Hw. unfold poll_once.
  replace (select_ret env <? 0) with false by (symmetry; apply Z.ltb_ge; lia).
  rewrite (poll_loop_single env _ _ (Z.to_nat FD_SETSIZE) 0 i webserve w Hq).
  - reflexivity.
  - unfold FD_SETSIZE in *. lia.
  - intros j Hj. split; intros Hin.
    + apply Hr in Hin. apply elem_of_singleton in Hin. contradiction.
    + apply Hw in Hin. apply elem_of_singleton in Hin. contradiction.
Qed.

(** X13.  [poll_thrice] whose first cycle finds [select] failing stops there:
    the flag is set and the two other cycles are not run. *)
Theorem poll_thrice_stops_at_failed_select (e1 e2 e3 : Env)
    (webserve : Webserve) (w : World) :
  select_ret e1 < 0 ->
  poll_thrice e1 e2 e3 webserve w = Running (set_quit true webserve) w.
Proof.
  intros Hs. unfold poll_thrice. cbn [poll_n].
  destruct (quit webserve) eqn:Hq.
  - destruct webserve. simpl in Hq. subst. reflexivity.
  - unfold bind, poll_once.
    replace (select_ret e1 <? 0) with true by (symmetry; apply Z.ltb_lt; lia).
    rewrite poll_loop_quit by reflexivity. reflexivity.
Qed.

(** The termination flag after a cycle: set before, or set by a failing
    [select]. *)
Lemma poll_once_quit env webserve w webserve' w' :
  poll_once env webserve w = Running webserve' w' ->
  quit webserve' = quit webserve || (select_ret env <? 0).
Proof.
  unfold poll_once. intros H.
  set (start := if select_ret env <? 0 then set_quit true webserve else webserve) in H.
  assert (Hstart : quit start = quit webserve || (select_ret env <? 0)).
  { unfold start. destruct (select_ret env <? 0); simpl;
      [rewrite orb_true_r | rewrite orb_false_r]; reflexivity. }
  rewrite <- Hstart.
  refine (poll_loop_preserves env _ _ (fun ws _ => quit ws = quit start) _
            _ _ _ _ _ _ eq_refl H).
  intros i ws w0 ws' w0' HP Hs.
  apply service_effect_config in Hs as (_ & Hq & _). congruence.
Qed.

(** X14.  When the flag is not set and [select] succeeds in the first two
    cycles, [poll_thrice] is three poll cycles in a row: no cycle sets the
    flag by itself. *)
Theorem poll_thrice_runs_three_cycles (e1 e2 e3 : Env)
    (webserve : Webserve) (w : World) :
  quit webserve = false -> 0 <= select_ret e1 -> 0 <= select_ret e2 ->
  poll_thrice e1 e2 e3 webserve w
  = (do first <- poll_once e1 webserve;
     do second <- poll_once e2 first;
     poll_once e3 second) w.
Proof.
  intros Hq H1 H2.
  assert (Heta : forall ws : Webserve, set_quit (quit ws) ws = ws)
    by (intros []; reflexivity).
  unfold poll_thrice. cbn [poll_n]. rewrite Hq. unfold bind.
  destruct (poll_once e1 webserve w) as [ws1 w1 | | |] eqn:E1; try reflexivity.
  pose proof (poll_once_quit _ _ _ _ _ E1) as Hq1.
  replace (select_ret e1 <? 0) with false in Hq1 by (symmetry; apply Z.ltb_ge; lia).
  rewrite Hq in Hq1. simpl in Hq1.
  cbn [orb]. rewrite !Heta. rewrite Hq1.
  destruct (poll_once e2 ws1 w1) as [ws2 w2 | | |] eqn:E2; try reflexivity.
  pose proof (poll_once_quit _ _ _ _ _ E2) as Hq2.
  replace (select_ret e2 <? 0) with false in Hq2 by (symmetry; apply Z.ltb_ge; lia).
  rewrite Hq1 in Hq2. simpl in Hq2.
  cbn [orb]. rewrite !Heta. rewrite Hq2.
  destruct (poll_once e3 ws2 w2) as [ws3 w3 | | |] eqn:E3; try reflexivity.
  cbn [orb pure]. rewrite !Heta. reflexivity.
Qed.

(** A descriptor whose read statement cannot return keeps the whole scan
    from returning. *)
Lemma poll_loop_no_return env read_fd_set write_fd_set n i0 i webserve w :
  quit webserve = false ->
  i0 <= i < i0 + Z.of_nat n ->
  (forall ws1 w1 ws' w', listenfd ws1 = listenfd webserve ->
     service_read env read_fd_set i ws1 w1 <> Running ws' w') ->
  forall webserve' w',
    poll_loop env read_fd_set write_fd_set n i0 webserve w <> Running webserve' w'.
Proof.
  revert i0 webserve w.
  induction n as [| n IH]; intros i0 webserve w Hq Hi Hstuck ws' w' H; [lia |].
  simpl in H. rewrite Hq in H.
  apply bind_running in H as (ws1 & w1 & Hs & H).
  destruct (Z.eq_dec i0 i) as [-> | Hne].
  - unfold service in Hs. apply bind_running in Hs as (ws2 & w2 & Hs & _).
    exact (Hstuck webserve w ws2 w2 eq_refl Hs).
  - apply service_effect_config in Hs as (Hl & Hq1 & _).
    revert H. apply IH; [congruence | lia |].
    intros ws2 w2 ws3 w3 Hl2. apply Hstuck. congruence.
Qed.

(** X15.  When the listening descriptor is readable and [accept] fails, the
    process exits with [EXIT_FAILURE] at that descriptor's turn, having
    changed nothing there, and the cycle does not return. *)
Theorem accept_failure_exits_process (env : Env) (webserve : Webserve) (w : World) :
  quit webserve = false -> 0 <= select_ret env ->
  0 <= listenfd webserve < FD_SETSIZE ->
  listenfd webserve ∈ active_read_fd_set webserve ->
  listenfd webserve ∈ ready_read env ->
  accept_ret env < 0 ->
  (forall ws1 w1, listenfd ws1 = listenfd webserve ->
     service env (active_read_fd_set webserve ∩ ready_read env)
       (active_write_fd_set webserve ∩ ready_write env) (listenfd webserve) ws1 w1
     = Exited EXIT_FAILURE w1) /\
  (forall webserve' w', poll_once env webserve w <> Running webserve' w').
Proof.
  intros Hq Hs Hl Hin Hready Hacc.
  assert (Hsnap : listenfd webserve ∈ active_read_fd_set webserve ∩ ready_read env)
    by (apply elem_of_intersection; split; assumption).
  assert (Hexit : forall ws1 w1, listenfd ws1 = listenfd webserve ->
            service_read env (active_read_fd_set webserve ∩ ready_read env)
              (listenfd webserve) ws1 w1 = Exited EXIT_FAILURE w1).
  { intros ws1 w1 Hl1. unfold service_read.
    rewrite (proj2 (FD_ISSET_true _ _) Hsnap). rewrite Hl1, Z.eqb_refl.
    unfold bind, new_descriptor.
    replace (accept_ret env <? 0) with true by (symmetry; apply Z.ltb_lt; lia).
    replace (accept_ret env <? 0) with true by (symmetry; apply Z.ltb_lt; lia).
    reflexivity. }
  split.
  - intros ws1 w1 Hl1. unfold service, bind. rewrite (Hexit ws1 w1 Hl1). reflexivity.
  - unfold poll_once.
    replace (select_ret env <? 0) with false by (symmetry; apply Z.ltb_ge; lia).
    apply poll_loop_no_return with (i := listenfd webserve); [exact Hq | | ].
    + unfold FD_SETSIZE in *. lia.
    + intros ws1 w1 ws' w' Hl1 Hrun. rewrite (Hexit ws1 w1 Hl1) in Hrun. discriminate.
Qed.

(** ** The hit count *)


(** ** One stage per cycle *)

(** X17.  In one cycle a descriptor can enter the awaiting-write set only from
    the awaiting-read set, the only descriptor that can enter the
    awaiting-read set is the one [accept] returned, and a descriptor is
    closed only if it was awaiting write.  So a connection needs a cycle to
    be accepted, another to be read and a third to be answered. *)
Theorem poll_once_moves_one_stage (env : Env) (webserve : Webserve) (w : World)
    (webserve' : Webserve) (w' : World) :
  poll_once env webserve w = Running webserve' w' ->
  active_write_fd_set webserve'
    ⊆ active_write_fd_set webserve
      ∪ (active_read_fd_set webserve ∖ {[listenfd webserve]}) /\
  active_read_fd_set webserve'
    ⊆ active_read_fd_set webserve ∪ {[accept_ret env]} /\
  (forall fd, fd ∈ open_fds w -> fd ∉ open_fds w' ->
     fd ∈ active_write_fd_set webserve).
Proof.
  unfold poll_once. intros H.
  set (rs := active_read_fd_set webserve ∩ ready_read env) in *.
  set (wsn := active_write_fd_set webserve ∩ ready_write env) in *.
  set (start := if select_ret env <? 0 then set_quit true webserve else webserve) in H.
  assert (Hl0 : listenfd start = listenfd webserve)
    by (unfold start; destruct (select_ret env <? 0); reflexivity).
  assert (Hr0 : active_read_fd_set start = active_read_fd_set webserve)
    by (unfold start; destruct (select_ret env <? 0); reflexivity).
  assert (Hw0 : active_write_fd_set start = active_write_fd_set webserve)
    by (unfold start; destruct (select_ret env <? 0); reflexivity).
  clearbody start.
  pose (P := fun (ws : Webserve) (wc : World) =>
    listenfd ws = listenfd webserve /\
    active_write_fd_set ws
      ⊆ active_write_fd_set webserve ∪ (rs ∖ {[listenfd webserve]}) /\
    active_read_fd_set ws ⊆ active_read_fd_set webserve ∪ {[accept_ret env]} /\
    open_fds w ∖ wsn ⊆ open_fds wc).
  assert (Hend : P webserve' w').
  { refine (poll_loop_preserves env rs wsn P _ _ _ _ _ _ _ _ H).
    - clear H. intros i ws w0 ws' w0' (Hl & Hwr & Hrd & Hop) Hs.
      unfold service in Hs. apply bind_running in Hs as (ws1 & w1 & H1 & H2).
      apply service_read_effect in H1 as (Hl1 & _ & _ & Hcase).
      apply service_write_effect in H2 as (Hl2 & _ & _ & _ & Hr2 & Hcase2).
      assert (Hmid : active_write_fd_set ws1
                       ⊆ active_write_fd_set webserve ∪ (rs ∖ {[listenfd webserve]}) /\
                     active_read_fd_set ws1
                       ⊆ active_read_fd_set webserve ∪ {[accept_ret env]} /\
                     open_fds w ∖ wsn ⊆ open_fds w1).
      { destruct Hcase as [(_ & -> & ->) | [Hacc | Hdat]].
        - repeat split; assumption.
        - destruct Hacc as (_ & _ & _ & _ & _ & Hr1 & Hw1 & _ & Ho1).
          rewrite Hr1, Hw1, Ho1. repeat split.
          + exact Hwr.
          + clear -Hrd. set_solver.
          + clear -Hop. set_solver.
        - destruct Hdat as (Hin & Hne & _ & Hr1 & Hw1 & _ & _ & _ & Ho1).
          rewrite Hr1, Hw1, Ho1. rewrite Hl in Hne. repeat split.
          + clear -Hwr Hin Hne. set_solver.
          + clear -Hrd. set_solver.
          + exact Hop. }
      destruct Hmid as (Hwr1 & Hrd1 & Hop1).
      split; [congruence |].
      destruct Hcase2 as [(_ & -> & ->) | (Hin & Hw2 & Ho2 & _)].
      + repeat split; assumption.
      + rewrite Hw2, Hr2, Ho2. repeat split.
        * clear -Hwr1. set_solver.
        * exact Hrd1.
        * clear -Hop1 Hin. set_solver.
    - split; [exact Hl0 |]. rewrite Hr0, Hw0. repeat split.
      + clear. set_solver.
      + clear. set_solver.
      + clear. set_solver. }
  destruct Hend as (_ & Hwr & Hrd & Hop).
  split; [| split; [exact Hrd |]].
  - unfold rs in Hwr. clear -Hwr. set_solver.
  - intros fd Hin Hout.
    destruct (decide (fd ∈ wsn)) as [Hw | Hw].
    + unfold wsn in Hw. clear -Hw. set_solver.
    + exfalso. apply Hout. apply Hop. clear -Hin Hw. set_solver.
Qed.

(** ** What holds of every running server *)

Lemma poll_once_keeps_callback env webserve w webserve' w' :
  poll_once env webserve w = Running webserve' w' ->
  conversation_callback webserve' = conversation_callback webserve.
Proof.
  unfold poll_once. intros H.
  set (start := if select_ret env <? 0 then set_quit true webserve else webserve) in H.
  assert (Hc0 : conversation_callback start = conversation_callback webserve)
    by (unfold start; destruct (select_ret env <? 0); reflexivity).
  rewrite <- Hc0.
  refine (poll_loop_preserves env _ _
            (fun ws _ => conversation_callback ws = conversation_callback start) _
            _ _ _ _ _ _ eq_refl H).
  intros i ws w0 ws' w0' HP Hs.
  apply service_effect_config in Hs as (_ & _ & Hc). congruence.
Qed.

(** X18.  A running server always has a callback registered: the pointer is
    never NULL, whatever was passed to [set_conv_callback]. *)
Theorem callback_always_registered (webserve : Webserve) (w : World) :
  reachable webserve w -> is_Some (conversation_callback webserve).
Proof.
  induction 1 as [env port w ws w' Hstart
                 | env ws w ws' w' _ IH Hpoll
                 | usec ws w _ IH
                 | cb ws w _ IH
                 | ws w w' _ IH Hsub].
  - unfold start_server in Hstart.
    apply bind_running in Hstart as (fd & w1 & _ & Hstart).
    destruct (fd <? 0); [discriminate |].
    destruct ((port <? 0) || (60000 <? port)); [discriminate |].
    destruct (bind_ret env <? 0); [discriminate |].
    destruct (listen_ret env <? 0); [discriminate |].
    unfold pure in Hstart. injection Hstart as <- _. simpl. eauto.
  - rewrite (poll_once_keeps_callback _ _ _ _ _ Hpoll). exact IH.
  - exact IH.
  - destruct cb; simpl; eauto.
  - exact IH.
Qed.

(** X19.  In every state of a running server the listening descriptor is
    open, awaits reading and does not await writing. *)
Theorem listening_descriptor_stays_registered (webserve : Webserve) (w : World) :
  reachable webserve w ->
  listenfd webserve ∈ active_read_fd_set webserve /\
  (listenfd webserve ∉ active_write_fd_set webserve) /\
  listenfd webserve ∈ open_fds w.
Proof.
  intros Hreach. destruct (reachable_inv _ _ Hreach) as [Hdis Hopen Hlisten].
  split; [exact Hlisten |]. split.
  - intros Hw. exact (Hdis _ Hlisten Hw).
  - apply Hopen. apply elem_of_union_l. exact Hlisten.
Qed.

(** X20.  In every state of a running server the descriptors in the two
    readiness sets are open: a descriptor is taken out of its set when it is
    closed. *)
Theorem registered_descriptors_are_open (webserve : Webserve) (w : World) (fd : Z) :
  reachable webserve w ->
  fd ∈ active_read_fd_set webserve ∪ active_write_fd_set webserve ->
  fd ∈ open_fds w.
Proof.
  intros Hreach Hin. destruct (reachable_inv _ _ Hreach) as [_ Hopen _].
  apply Hopen. exact Hin.
Qed.

(** Servicing one descriptor keeps a record behind every registered data
    descriptor. *)
Lemma service_keeps_conversations env read_fd_set write_fd_set i webserve w
    webserve' w' :
  loop_inv read_fd_set write_fd_set i webserve w ->
  registered_have_conversations webserve ->
  service env read_fd_set write_fd_set i webserve w = Running webserve' w' ->
  registered_have_conversations webserve'.
Proof.
  intros Hinv Hreg Hs. unfold service in Hs.
  apply bind_running in Hs as (ws1 & w1 & H1 & H2).
  pose proof (service_read_inv _ _ _ _ _ _ _ _ Hinv H1)
    as ([Hdis1 _ _] & _ & Hwr1 & _).
  apply service_read_effect in H1 as (Hl1 & _ & _ & Hcase).
  assert (Hreg1 : registered_have_conversations ws1).
  { destruct Hcase as [(_ & -> & _) | [Hacc | Hdat]]; [exact Hreg | |].
    - destruct Hacc as (_ & _ & _ & _ & _ & Hr & Hw & Hc & _).
      intros fd Hin Hne. rewrite Hr, Hw in Hin. rewrite Hl1 in Hne. rewrite Hc.
      destruct (decide (fd = accept_ret env)) as [-> | Hfd].
      + rewrite lookup_insert_eq. eauto.
      + rewrite lookup_insert_ne by congruence.
        apply Hreg; [| exact Hne]. clear -Hin Hfd. set_solver.
    - destruct Hdat as (_ & _ & _ & Hr & Hw & _ & Hslot & Hother & _).
      intros fd Hin Hne. rewrite Hr, Hw in Hin. rewrite Hl1 in Hne.
      destruct (decide (fd = i)) as [-> | Hfd]; [exact Hslot |].
      rewrite Hother by exact Hfd.
      apply Hreg; [| exact Hne]. clear -Hin Hfd. set_solver. }
  apply service_write_effect in H2 as (Hl2 & _ & _ & _ & Hr2 & Hcase2).
  destruct Hcase2 as [(_ & -> & _) | (Hin & Hw2 & _ & Hother & _)]; [exact Hreg1 |].
  intros fd Hfd Hne. rewrite Hr2, Hw2 in Hfd. rewrite Hl2 in Hne.
  destruct (decide (fd = i)) as [-> | Hfi].
  - exfalso. assert (Hw : i ∈ active_write_fd_set ws1) by (apply Hwr1; [lia | exact Hin]).
    apply (Hdis1 i); [| exact Hw]. clear -Hfd. set_solver.
  - rewrite Hother by exact Hfi.
    apply Hreg1; [| exact Hne]. clear -Hfd. set_solver.
Qed.

Lemma poll_once_keeps_conversations env webserve w webserve' w' :
  server_inv webserve w ->
  registered_have_conversations webserve ->
  poll_once env webserve w = Running webserve' w' ->
  registered_have_conversations webserve'.
Proof.
  intros [Hdis Hopen Hlisten] Hreg H. unfold poll_once in H.
  set (rs := active_read_fd_set webserve ∩ ready_read env) in *.
  set (wsn := active_write_fd_set webserve ∩ ready_write env) in *.
  set (start := if select_ret env <? 0 then set_quit true webserve else webserve) in H.
  assert (Hinv0 : loop_inv rs wsn 0 start w).
  { unfold start, rs, wsn. split.
    - destruct (select_ret env <? 0); split; assumption.
    - intros j _ Hj. apply elem_of_intersection in Hj as [Hj _].
      destruct (select_ret env <? 0); exact Hj.
    - intros j _ Hj. apply elem_of_intersection in Hj as [Hj _].
      destruct (select_ret env <? 0); exact Hj. }
  assert (Hreg0 : registered_have_conversations start)
    by (unfold start; destruct (select_ret env <? 0); exact Hreg).
  clearbody start.
  destruct (quit start) eqn:Hq.
  - rewrite poll_loop_quit in H by exact Hq. injection H as <- _. exact Hreg0.
  - refine (proj2 (proj1 (poll_loop_advances env rs wsn
              (fun i ws wc => loop_inv rs wsn i ws wc /\
                              registered_have_conversations ws)
              _ _ _ _ _ _ _ Hq (conj Hinv0 Hreg0) H))).
    clear. intros i ws w0 ws' w0' [Hinv Hreg] _ Hs. split.
    + exact (proj1 (service_inv _ _ _ _ _ _ _ _ Hinv Hs)).
    + exact (service_keeps_conversations _ _ _ _ _ _ _ _ Hinv Hreg Hs).
Qed.

(** X21.  In every state of a running server each registered descriptor other
    than the listening one has a conversation record in its slot of the
    table. *)
Theorem registered_descriptors_have_records (webserve : Webserve) (w : World) :
  reachable webserve w -> registered_have_conversations webserve.
Proof.
  induction 1 as [env port w ws w' Hstart
                 | env ws w ws' w' Hreach IH Hpoll
                 | usec ws w _ IH
                 | cb ws w _ IH
                 | ws w w' _ IH Hsub].
  - unfold start_server in Hstart.
    apply bind_running in Hstart as (fd & w1 & _ & Hstart).
    destruct (fd <? 0); [discriminate |].
    destruct ((port <? 0) || (60000 <? port)); [discriminate |].
    destruct (bind_ret env <? 0); [discriminate |].
    destruct (listen_ret env <? 0); [discriminate |].
    unfold pure in Hstart. injection Hstart as <- _.
    intros j Hj Hne. simpl in Hj, Hne. unfold FD_SET, FD_ZERO in Hj.
    exfalso. clear -Hj Hne. set_solver.
  - exact (poll_once_keeps_conversations _ _ _ _ _ (reachable_inv _ _ Hreach) IH Hpoll).
  - exact IH.
  - destruct cb; exact IH.
  - exact IH.
Qed.

(** ** Shutting down *)

(** X22.  [finish_server] closes the listening descriptor and nothing else:
    the descriptors of the clients that are still registered stay open, and
    no buffer of a conversation is freed. *)
Theorem finish_server_closes_only_listener (webserve : Webserve) (w : World) :
  reachable webserve w ->
  exists w',
    finish_server webserve w = Running tt w' /\
    (listenfd webserve ∉ open_fds w') /\
    (forall fd, fd ∈ active_read_fd_set webserve ∪ active_write_fd_set webserve ->
       fd <> listenfd webserve -> fd ∈ open_fds w') /\
    heap w' = heap w /\
    trace w' = trace w ++ [EvClose (listenfd webserve)].
Proof.
  intros Hreach. destruct (reachable_inv _ _ Hreach) as [_ Hopen _].
  eexists. split; [reflexivity |]. simpl.
  split; [clear; set_solver |].
  split; [| split; reflexivity].
  intros fd Hin Hne. apply Hopen in Hin. clear -Hin Hne. set_solver.
Qed.

(** ** When the server stops by itself *)

Lemma poll_n_quit envs webserve w webserve' w' :
  poll_n envs webserve w = Running webserve' w' ->
  quit webserve'
  = quit webserve || existsb (fun env => select_ret env <? 0) envs.
Proof.
  revert webserve w. induction envs as [| env envs IH]; intros webserve w H.
  - simpl in H. unfold pure in H. injection H as <- _.
    simpl. rewrite orb_false_r. reflexivity.
  - cbn [poll_n] in H. destruct (quit webserve) eqn:Hq.
    + unfold pure in H. injection H as <- _. rewrite Hq. reflexivity.
    + apply bind_running in H as (after & w1 & H1 & H2).
      apply IH in H2. apply poll_once_quit in H1.
      rewrite H2. simpl. rewrite H1, Hq. reflexivity.
Qed.

(** X23.  [poll_thrice] returns with the termination flag set exactly when the
    flag was set before the call or [select] failed in one of the cycles:
    servicing a descriptor never sets the flag. *)
Theorem poll_thrice_quits_on_select_failure_only (e1 e2 e3 : Env)
    (webserve : Webserve) (w : World) (webserve' : Webserve) (w' : World) :
  poll_thrice e1 e2 e3 webserve w = Running webserve' w' ->
  quit webserve' = true <->
  quit webserve = true \/ select_ret e1 < 0 \/ select_ret e2 < 0 \/ select_ret e3 < 0.
Proof.
  intros H. unfold poll_thrice in H. apply poll_n_quit in H. rewrite H.
  cbn [existsb]. rewrite !orb_true_iff, !Z.ltb_lt.
  split; [intros [Hq | [H1 | [H2 | [H3 | Hn]]]]; [tauto .. | discriminate] | tauto].
Qed.

(** X24.  [poll_forever] returns only with the termination flag set, and then
    the flag was set before the call or [select] failed in one of the
    cycles: while [select] succeeds the loop goes on. *)
Theorem poll_forever_returns_flagged (envs : list Env) (webserve : Webserve)
    (w : World) (webserve' : Webserve) (w' : World) :
  poll_forever envs webserve w = Running (Some webserve') w' ->
  quit webserve' = true /\
  (quit webserve = true \/ Exists (fun env => select_ret env < 0) envs).
Proof.
  revert webserve w. induction envs as [| env envs IH]; intros webserve w H.
  - simpl in H. unfold pure in H. destruct (quit webserve) eqn:Hq; [| discriminate].
    injection H as <- _. split; [exact Hq | left; reflexivity].
  - cbn [poll_forever] in H. destruct (quit webserve) eqn:Hq.
    + unfold pure in H. injection H as <- _. split; [exact Hq | left; reflexivity].
    + apply bind_running in H as (after & w1 & H1 & H2).
      apply IH in H2 as [Hflag Hwhy]. split; [exact Hflag |]. right.
      destruct Hwhy as [Hmid | Hlater]; [| apply Exists_cons_tl; exact Hlater].
      apply Exists_cons_hd. apply poll_once_quit in H1.
      simpl in Hmid. rewrite H1, Hq in Hmid. simpl in Hmid.
      apply Z.ltb_lt. exact Hmid.
Qed.

(** X25.  [poll_forever] ends in the first cycle whose [select] fails: the
    cycles before it are those of [poll_n], the failing cycle services no
    descriptor and sets the flag, and no further cycle is run. *)
Theorem poll_forever_stops_at_failed_select (pre : list Env) (env : Env)
    (post : list Env) (webserve : Webserve) (w : World)
    (webserve1 : Webserve) (w1 : World) :
  quit webserve = false ->
  Forall (fun e => 0 <= select_ret e) pre ->
  select_ret env < 0 ->
  poll_n pre webserve w = Running webserve1 w1 ->
  poll_forever (pre ++ env :: post) webserve w
  = Running (Some (set_quit true webserve1)) w1.
Proof.
  intros Hq Hpre Henv. revert webserve w Hq.
  induction Hpre as [| e pre He Hpre IH]; intros webserve w Hq H.
  - simpl in H. unfold pure in H. injection H as <- <-.
    cbn [app poll_forever]. rewrite Hq. unfold bind, poll_once.
    replace (select_ret env <? 0) with true by (symmetry; apply Z.ltb_lt; lia).
    rewrite poll_loop_quit by reflexivity.
    destruct post; cbn [poll_forever set_quit quit orb]; rewrite ?orb_true_r;
      reflexivity.
  - cbn [poll_n] in H. rewrite Hq in H.
    apply bind_running in H as (after & w2 & H1 & H2).
    cbn [app poll_forever]. rewrite Hq. unfold bind. rewrite H1.
    apply IH; [| exact H2].
    apply poll_once_quit in H1. simpl. rewrite H1, Hq.
    simpl. apply Z.ltb_ge. exact He.
Qed.

(** *** Instances of the further properties *)

Lemma served_runs :
  poll_n [connects 4; sends 4 get_request; drains 4]
    (handle_of started) (world_of started)
  = Running (handle_of served) (world_of served).
Proof. vm_compute. reflexivity. Qed.

Lemma started_reachable : reachable (handle_of started) (world_of started).
Proof. apply (reach_start kernel_ok 8080 boot). exact started_runs. Defined.

Lemma connected_reachable : reachable (handle_of connected) (world_of connected).
Proof.
  apply (reach_poll (connects 4) (handle_of started) (world_of started));
    [exact started_reachable | exact connected_runs].
Defined.

Lemma started_listens : listenfd (handle_of started) = 3.
Proof. vm_compute. reflexivity. Qed.

Lemma started_not_quit : quit (handle_of started) = false.
Proof. vm_compute. reflexivity. Qed.

Lemma web_read_stores_request_witness :
  0 < Z.of_nat (length get_request) < BUFSIZE /\
  request_type get_request <> REQUEST_INVALID /\
  exists c' w',
    web_read 4 (Some Conv.zeroed) (Some get_request) boot = Running (Some c') w' /\
    Conv.type c' = REQUEST_GET.
Proof.
  assert (Hlen : 0 < Z.of_nat (length get_request) < BUFSIZE)
    by (split; reflexivity).
  assert (Hty : request_type get_request <> REQUEST_INVALID)
    by (vm_compute; discriminate).
  split; [exact Hlen |]. split; [exact Hty |].
  destruct (web_read_stores_request 4 Conv.zeroed get_request boot Hlen Hty)
    as (c' & w' & hp & bp & boundary & Hrun & Htype & _).
  exists c', w'. split; [exact Hrun |].
  rewrite Htype. vm_compute. reflexivity.
Defined.

Lemma web_write_sends_announced_length_witness :
  Conv.response replying = Some 1%positive /\
  heap holding !! 1%positive = Some (c_lit "Okay") /\
  0 <= Conv.response_size replying <= Z.of_nat (length (c_lit "Okay")) /\
  exists w',
    web_write 4 (Some replying) holding = Running tt w' /\
    trace w' = [EvWrite 4 (response_head 4); EvWrite 4 (c_lit "Okay"); EvClose 4].
Proof.
  assert (Hp : Conv.response replying = Some 1%positive) by reflexivity.
  assert (Hblk : heap holding !! 1%positive = Some (c_lit "Okay"))
    by (vm_compute; reflexivity).
  assert (Hsz : 0 <= Conv.response_size replying <= Z.of_nat (length (c_lit "Okay")))
    by (split; discriminate).
  split; [exact Hp |]. split; [exact Hblk |]. split; [exact Hsz |].
  destruct (web_write_sends_announced_length 4 replying 1%positive (c_lit "Okay")
              holding Hp Hblk Hsz)
    as (w' & payload & Hrun & Htrace & _ & Hpay & _).
  exists w'. split; [exact Hrun |].
  rewrite Htrace, Hpay. reflexivity.
Defined.

Lemma web_write_without_payload_witness :
  (forall c, Some Conv.zeroed = Some c -> Conv.response c = None) /\
  exists w',
    web_write 4 (Some Conv.zeroed) holding = Running tt w' /\
    open_fds w' = open_fds holding ∖ {[4]}.
Proof.
  assert (H : forall c, Some Conv.zeroed = Some c -> Conv.response c = None).
  { intros c Hc. injection Hc as <-. reflexivity. }
  split; [exact H |].
  destruct (web_write_without_payload 4 (Some Conv.zeroed) holding H)
    as (w' & Hrun & _ & Hopen & _).
  exists w'. split; assumption.
Defined.


Lemma conversation_new_then_clear_witness :
  0 < 4 < FD_SETSIZE /\
  conversation (handle_of started) !! 4 = None /\
  (do created <- conversation_new (handle_of started) 4;
   conversation_clear created 4) (world_of started)
  = Running (handle_of started) (world_of started).
Proof.
  assert (Hfd : 0 < 4 < FD_SETSIZE) by (split; reflexivity).
  assert (Hslot : conversation (handle_of started) !! 4 = None)
    by (vm_compute; reflexivity).
  split; [exact Hfd |]. split; [exact Hslot |].
  exact (conversation_new_then_clear (handle_of started) 4 (world_of started)
           Hfd Hslot).
Defined.



Lemma poll_once_stops_witness :
  (select_ret interrupted < 0 \/ quit (handle_of connected) = true) /\
  poll_once interrupted (handle_of connected) (world_of connected)
  = Running (set_quit true (handle_of connected)) (world_of connected).
Proof.
  assert (H : select_ret interrupted < 0 \/ quit (handle_of connected) = true)
    by (left; reflexivity).
  split; [exact H |].
  exact (poll_once_stops interrupted (handle_of connected) (world_of connected) H).
Defined.

Lemma poll_once_nothing_ready_witness :
  0 <= select_ret timed_out /\
  active_read_fd_set (handle_of connected) ∩ ready_read timed_out = ∅ /\
  active_write_fd_set (handle_of connected) ∩ ready_write timed_out = ∅ /\
  poll_once timed_out (handle_of connected) (world_of connected)
  = Running (handle_of connected) (world_of connected).
Proof.
  assert (Hs : 0 <= select_ret timed_out) by discriminate.
  assert (Hr : active_read_fd_set (handle_of connected) ∩ ready_read timed_out = ∅)
    by (simpl; set_solver).
  assert (Hw : active_write_fd_set (handle_of connected) ∩ ready_write timed_out = ∅)
    by (simpl; set_solver).
  split; [exact Hs |]. split; [exact Hr |]. split; [exact Hw |].
  exact (poll_once_nothing_ready timed_out (handle_of connected)
           (world_of connected) Hs Hr Hw).
Defined.

Lemma poll_once_single_ready_witness :
  quit (handle_of started) = false /\ 0 <= select_ret (connects 4) /\
  0 <= 3 < FD_SETSIZE /\
  active_read_fd_set (handle_of started) ∩ ready_read (connects 4) ⊆ {[3]} /\
  active_write_fd_set (handle_of started) ∩ ready_write (connects 4) ⊆ {[3]} /\
  poll_once (connects 4) (handle_of started) (world_of started)
  = (do served <- service_read (connects 4)
                    (active_read_fd_set (handle_of started) ∩ ready_read (connects 4))
                    3 (handle_of started);
     service_write
       (active_write_fd_set (handle_of started) ∩ ready_write (connects 4))
       3 served) (world_of started).
Proof.
  assert (Hq : quit (handle_of started) = false) by exact started_not_quit.
  assert (Hs : 0 <= select_ret (connects 4)) by discriminate.
  assert (Hi : 0 <= 3 < FD_SETSIZE) by (split; [discriminate | reflexivity]).
  assert (Hr : active_read_fd_set (handle_of started) ∩ ready_read (connects 4) ⊆ {[3]})
    by (simpl; set_solver).
  assert (Hw : active_write_fd_set (handle_of started) ∩ ready_write (connects 4) ⊆ {[3]})
    by (simpl; set_solver).
  split; [exact Hq |]. split; [exact Hs |]. split; [exact Hi |].
  split; [exact Hr |]. split; [exact Hw |].
  exact (poll_once_single_ready (connects 4) (handle_of started) (world_of started)
           3 Hq Hs Hi Hr Hw).
Defined.

Lemma poll_thrice_stops_at_failed_select_witness :
  select_ret interrupted < 0 /\
  poll_thrice interrupted (connects 4) (sends 4 get_request)
    (handle_of started) (world_of started)
  = Running (set_quit true (handle_of started)) (world_of started).
Proof.
  assert (H : select_ret interrupted < 0) by reflexivity.
  split; [exact H |].
  exact (poll_thrice_stops_at_failed_select interrupted (connects 4)
           (sends 4 get_request) (handle_of started) (world_of started) H).
Defined.

Lemma poll_thrice_runs_three_cycles_witness :
  quit (handle_of started) = false /\
  0 <= select_ret (connects 4) /\ 0 <= select_ret (sends 4 get_request) /\
  poll_thrice (connects 4) (sends 4 get_request) (drains 4)
    (handle_of started) (world_of started)
  = (do first <- poll_once (connects 4) (handle_of started);
     do second <- poll_once (sends 4 get_request) first;
     poll_once (drains 4) second) (world_of started).
Proof.
  assert (Hq : quit (handle_of started) = false) by exact started_not_quit.
  assert (H1 : 0 <= select_ret (connects 4)) by discriminate.
  assert (H2 : 0 <= select_ret (sends 4 get_request)) by discriminate.
  split; [exact Hq |]. split; [exact H1 |]. split; [exact H2 |].
  exact (poll_thrice_runs_three_cycles (connects 4) (sends 4 get_request) (drains 4)
           (handle_of started) (world_of started) Hq H1 H2).
Defined.

Lemma accept_failure_exits_process_witness :
  quit (handle_of started) = false /\ 0 <= select_ret refused /\
  0 <= listenfd (handle_of started) < FD_SETSIZE /\
  listenfd (handle_of started) ∈ active_read_fd_set (handle_of started) /\
  listenfd (handle_of started) ∈ ready_read refused /\
  accept_ret refused < 0 /\
  forall webserve' w',
    poll_once refused (handle_of started) (world_of started)
    <> Running webserve' w'.
Proof.
  assert (Hq : quit (handle_of started) = false) by exact started_not_quit.
  assert (Hs : 0 <= select_ret refused) by discriminate.
  assert (Hl : 0 <= listenfd (handle_of started) < FD_SETSIZE)
    by (rewrite started_listens; split; [discriminate | reflexivity]).
  assert (Hr : listenfd (handle_of started) ∈ active_read_fd_set (handle_of started)).
  { apply (proj1 (FD_ISSET_true _ _)). vm_compute. reflexivity. }
  assert (Hy : listenfd (handle_of started) ∈ ready_read refused).
  { apply (proj1 (FD_ISSET_true _ _)). vm_compute. reflexivity. }
  assert (Ha : accept_ret refused < 0) by reflexivity.
  split; [exact Hq |]. split; [exact Hs |]. split; [exact Hl |].
  split; [exact Hr |]. split; [exact Hy |]. split; [exact Ha |].
  exact (proj2 (accept_failure_exits_process refused (handle_of started)
                  (world_of started) Hq Hs Hl Hr Hy Ha)).
Defined.


Lemma poll_once_moves_one_stage_witness :
  poll_once (sends 4 get_request) (handle_of connected) (world_of connected)
  = Running (handle_of answered) (world_of answered) /\
  active_write_fd_set (handle_of answered)
    ⊆ active_write_fd_set (handle_of connected)
      ∪ (active_read_fd_set (handle_of connected)
         ∖ {[listenfd (handle_of connected)]}).
Proof.
  split; [exact answered_runs |].
  exact (proj1 (poll_once_moves_one_stage (sends 4 get_request)
                  (handle_of connected) (world_of connected)
                  (handle_of answered) (world_of answered) answered_runs)).
Defined.

Lemma callback_always_registered_witness :
  reachable (handle_of answered) (world_of answered) /\
  is_Some (conversation_callback (handle_of answered)).
Proof.
  split; [exact answered_reachable |].
  exact (callback_always_registered (handle_of answered) (world_of answered)
           answered_reachable).
Defined.

Lemma listening_descriptor_stays_registered_witness :
  reachable (handle_of answered) (world_of answered) /\
  listenfd (handle_of answered) ∈ active_read_fd_set (handle_of answered).
Proof.
  split; [exact answered_reachable |].
  exact (proj1 (listening_descriptor_stays_registered (handle_of answered)
                  (world_of answered) answered_reachable)).
Defined.

Lemma registered_descriptors_are_open_witness :
  reachable (handle_of answered) (world_of answered) /\
  4 ∈ active_read_fd_set (handle_of answered)
      ∪ active_write_fd_set (handle_of answered) /\
  4 ∈ open_fds (world_of answered).
Proof.
  assert (Hin : 4 ∈ active_read_fd_set (handle_of answered)
                    ∪ active_write_fd_set (handle_of answered)).
  { apply elem_of_union_r. apply (proj1 (FD_ISSET_true 4 _)).
    vm_compute. reflexivity. }
  split; [exact answered_reachable |]. split; [exact Hin |].
  exact (registered_descriptors_are_open (handle_of answered) (world_of answered) 4
           answered_reachable Hin).
Defined.

Lemma registered_descriptors_have_records_witness :
  reachable (handle_of answered) (world_of answered) /\
  registered_have_conversations (handle_of answered).
Proof.
  split; [exact answered_reachable |].
  exact (registered_descriptors_have_records (handle_of answered)
           (world_of answered) answered_reachable).
Defined.

Lemma finish_server_closes_only_listener_witness :
  reachable (handle_of connected) (world_of connected) /\
  exists w',
    finish_server (handle_of connected) (world_of connected) = Running tt w' /\
    (listenfd (handle_of connected) ∉ open_fds w').
Proof.
  split; [exact connected_reachable |].
  destruct (finish_server_closes_only_listener (handle_of connected)
              (world_of connected) connected_reachable)
    as (w' & Hrun & Hclosed & _).
  exists w'. split; assumption.
Defined.

Lemma poll_thrice_quits_on_select_failure_only_witness :
  poll_thrice (connects 4) (sends 4 get_request) (drains 4)
    (handle_of started) (world_of started)
  = Running (handle_of served) (world_of served) /\
  (quit (handle_of served) = true <->
   quit (handle_of started) = true \/ select_ret (connects 4) < 0 \/
   select_ret (sends 4 get_request) < 0 \/ select_ret (drains 4) < 0).
Proof.
  split; [exact served_runs |].
  exact (poll_thrice_quits_on_select_failure_only (connects 4)
           (sends 4 get_request) (drains 4) (handle_of started) (world_of started)
           (handle_of served) (world_of served) served_runs).
Defined.

Lemma poll_forever_returns_flagged_witness :
  poll_forever [connects 4; interrupted] (handle_of started) (world_of started)
  = Running (Some (set_quit true (handle_of connected))) (world_of connected) /\
  quit (set_quit true (handle_of connected)) = true.
Proof.
  assert (Hrun :
    poll_forever [connects 4; interrupted] (handle_of started) (world_of started)
    = Running (Some (set_quit true (handle_of connected))) (world_of connected))
    by (vm_compute; reflexivity).
  split; [exact Hrun |].
  exact (proj1 (poll_forever_returns_flagged [connects 4; interrupted]
                  (handle_of started) (world_of started)
                  (set_quit true (handle_of connected)) (world_of connected) Hrun)).
Defined.

Lemma poll_forever_stops_at_failed_select_witness :
  quit (handle_of started) = false /\
  Forall (fun e => 0 <= select_ret e) [connects 4; sends 4 get_request; drains 4] /\
  select_ret interrupted < 0 /\
  poll_n [connects 4; sends 4 get_request; drains 4]
    (handle_of started) (world_of started)
  = Running (handle_of served) (world_of served) /\
  poll_forever ([connects 4; sends 4 get_request; drains 4]
                ++ interrupted :: [timed_out])
    (handle_of started) (world_of started)
  = Running (Some (set_quit true (handle_of served))) (world_of served).
Proof.
  assert (Hq : quit (handle_of started) = false) by exact started_not_quit.
  assert (Hpre : Forall (fun e => 0 <= select_ret e)
                   [connects 4; sends 4 get_request; drains 4])
    by (repeat constructor; discriminate).
  assert (Hs : select_ret interrupted < 0) by reflexivity.
  split; [exact Hq |]. split; [exact Hpre |]. split; [exact Hs |].
  split; [exact served_runs |].
  exact (poll_forever_stops_at_failed_select
           [connects 4; sends 4 get_request; drains 4] interrupted [timed_out]
           (handle_of started) (world_of started)
           (handle_of served) (world_of served) Hq Hpre Hs served_runs).
Defined.
